(** * ulauncher-gpt: the query, wrapping and result-item pipeline of [main.py]

    A shallow embedding of [main.py] and the properties of its
    specification.  Python values are modelled as follows.

    - A [str] is a [string]; one [ascii] stands for one character (code
      points below 256), so [String.length] is Python's [len].
    - An [int] is a [Z].  A [float] is a value of an abstract type [F]: the
      program parses floats and passes them on, it never computes on them.
    - A decoded JSON document is a [json] tree; a [dict] built by a literal
      is an association list in the order of the literal.
    - The preferences mapping handed over by the launcher is a
      [gmap string string].
    - A call that may raise returns a [result]; [except Exception] is a
      [match] on it.  The requests handed to [requests.post] are recorded
      in the [sent] field of a [run].
    - What the Python runtime and the network do ([int], [float], [repr],
      [str], [json.dumps], [requests.post]) is the interface [Host]. *)

From Stdlib Require Import String Ascii List ZArith QArith Lia Bool.
From Stdlib Require Import DecimalString.
From stdpp Require Import base gmap strings.
Import ListNotations.

Local Open Scope Z_scope.

(** ** Python strings *)

(** The line feed, as a character and as a [str]. *)
Definition NEWLINE : ascii := "010"%char.
Definition LF : string := String NEWLINE "".

(** The double quote, as a character and as a [str]. *)
Definition DQUOTE : ascii := "034"%char.
Definition DQ : string := String DQUOTE "".

(** [len(s)]. *)
Definition len (s : string) : Z := Z.of_nat (String.length s).

(** [c.isspace()] for a character below 256: TAB, LF, VT, FF, CR, the
    separators FS, GS, RS and US, the space, NEL and the no-break space. *)
Definition isspace (c : ascii) : bool :=
  let n := nat_of_ascii c in
  ((9 <=? n) && (n <=? 13) || (28 <=? n) && (n <=? 32)
   || (n =? 133) || (n =? 160))%nat.

(** [text.split()], scanning left to right; [word] is the token read so
    far.  Runs of whitespace separate tokens and never produce an empty
    token. *)
Fixpoint split_from (word : string) (text : string) : list string :=
  match text with
  | EmptyString => if String.eqb word "" then [] else [word]
  | String c rest =>
      if isspace c
      then (if String.eqb word "" then split_from "" rest
            else word :: split_from "" rest)
      else split_from (word +:+ String c "") rest
  end.

Definition split (text : string) : list string := split_from "" text.

(** [s.lstrip()], [s.rstrip()] and [s.strip()]. *)
Fixpoint lstrip (s : string) : string :=
  match s with
  | EmptyString => ""
  | String c rest => if isspace c then lstrip rest else s
  end.

Fixpoint rstrip (s : string) : string :=
  match s with
  | EmptyString => ""
  | String c rest =>
      match rstrip rest with
      | EmptyString => if isspace c then "" else String c ""
      | kept => String c kept
      end
  end.

Definition strip (s : string) : string := rstrip (lstrip s).

(** [c in s] for a character [c]. *)
Fixpoint has_char (c : ascii) (s : string) : bool :=
  match s with
  | EmptyString => false
  | String d rest => Ascii.eqb c d || has_char c rest
  end.

(** [needle in text]. *)
Definition mentions (needle text : string) : bool :=
  match String.index 0 needle text with
  | Some _ => true
  | None => false
  end.

(** [sep.join(parts)]. *)
Definition join (sep : string) (parts : list string) : string :=
  String.concat sep parts.

(** ** The text wrapper *)

(** The [for word in words] loop of [wrap_text]; the state is the pair
    [(lines, current_line)]. *)
Fixpoint wrap_loop (max_w : Z) (words lines : list string)
    (current_line : string) : list string * string :=
  match words with
  | [] => (lines, current_line)
  | word :: rest =>
      if len (current_line +:+ word) <=? max_w
      then wrap_loop max_w rest lines (current_line +:+ " " +:+ word)
      else wrap_loop max_w rest (lines ++ [strip current_line]) word
  end.

(** The list [lines] of [wrap_text] just before it is joined. *)
Definition wrap_lines (text : string) (max_w : Z) : list string :=
  let '(lines, current_line) := wrap_loop max_w (split text) [] "" in
  lines ++ [strip current_line].

Definition wrap_text (text : string) (max_w : Z) : string :=
  join LF (wrap_lines text max_w).

(** ** Exceptions and results *)

(** The exception classes that occur; all of them derive from
    [Exception], so [except Exception] catches each.  An exception carries
    its message, a [KeyError] the missing key. *)
Inductive exn : Type :=
| Exception (msg : string)
| KeyError (key : string)
| ValueError (msg : string)
| TypeError (msg : string)
| AttributeError (msg : string)
| RequestException (msg : string).

(** The outcome of an expression: a value, or an exception in flight. *)
Inductive result (A : Type) : Type :=
| Ok (a : A)
| Raise (e : exn).
Arguments Ok {A} a.
Arguments Raise {A} e.

Definition bind {A B : Type} (r : result A) (k : A -> result B) : result B :=
  match r with
  | Ok a => k a
  | Raise e => Raise e
  end.

Notation "x <- e ;; k" := (bind e (fun x => k))
  (at level 100, e at next level, right associativity).

(** Runs [f] over a list from left to right and stops at the first
    exception, as a [for] loop whose body may raise does. *)
Fixpoint for_each {A B : Type} (f : A -> result B) (xs : list A)
    : result (list B) :=
  match xs with
  | [] => Ok []
  | x :: rest => y <- f x ;; ys <- for_each f rest ;; Ok (y :: ys)
  end.

(** ** Decoded JSON *)

Section Values.
Variable F : Type.

(** What [json.loads] builds: [None], [bool], [int], [float], [str],
    [list] and [dict] with string keys (in the order of the document). *)
#[warnings="-register-all"]
Inductive json : Type :=
| JNull
| JBool (b : bool)
| JInt (n : Z)
| JFloat (x : F)
| JString (s : string)
| JArray (items : list json)
| JObject (members : list (string * json)).

(** [type(v).__name__]. *)
Definition type_name (v : json) : string :=
  match v with
  | JNull => "NoneType"
  | JBool _ => "bool"
  | JInt _ => "int"
  | JFloat _ => "float"
  | JString _ => "str"
  | JArray _ => "list"
  | JObject _ => "dict"
  end.

(** The value a [dict] holds under [key]; the keys of a [dict] are
    distinct, so the first binding is the binding. *)
Fixpoint dict_get (members : list (string * json)) (key : string)
    : option json :=
  match members with
  | [] => None
  | (k, v) :: rest => if String.eqb k key then Some v else dict_get rest key
  end.

(** [v[key]] for a string [key]: only a [dict] can be subscripted by a
    string (message wording of CPython 3.11). *)
Definition getitem (v : json) (key : string) : result json :=
  match v with
  | JObject members =>
      match dict_get members key with
      | Some x => Ok x
      | None => Raise (KeyError key)
      end
  | JArray _ =>
      Raise (TypeError "list indices must be integers or slices, not str")
  | JString _ =>
      Raise (TypeError "string indices must be integers, not 'str'")
  | _ =>
      Raise (TypeError ("'" +:+ type_name v +:+ "' object is not subscriptable"))
  end.

(** The characters of a [str], each as a one-character [str]. *)
Fixpoint chars (s : string) : list string :=
  match s with
  | EmptyString => []
  | String c rest => String c "" :: chars rest
  end.

(** The values [for x in v] runs through: the elements of a [list], the
    keys of a [dict], the characters of a [str]. *)
Definition iterate (v : json) : result (list json) :=
  match v with
  | JArray items => Ok items
  | JObject members => Ok (map (fun kv => JString (fst kv)) members)
  | JString s => Ok (map JString (chars s))
  | _ => Raise (TypeError ("'" +:+ type_name v +:+ "' object is not iterable"))
  end.

(** ** Launcher items and actions *)

Inductive action : Type :=
| CopyToClipboardAction (text : string)
| DoNothingAction
| ExtensionCustomAction (data : string) (keep_app_open : bool).

(** The arguments of a call
    [ExtensionResultItem(icon=, name=, description=, on_enter=)];
    [description] is [None] when the call gives none. *)
Record ExtensionResultItem : Type := {
  icon : string;
  name : string;
  description : option string;
  on_enter : action
}.

Record RenderResultListAction : Type := {
  result_list : list ExtensionResultItem
}.

(** ** HTTP *)

(** The arguments of [requests.post(url, headers=, data=, timeout=)]. *)
Record http_request : Type := {
  url : string;
  headers : list (string * string);
  data : string;
  timeout : Z
}.

(** A [requests.Response] as far as the program looks at it:
    [response.json()] returns [decoded], and raises when it is [None]. *)
Record Response : Type := {
  status_code : Z;
  decoded : option json
}.

(** The objects the variable [response] is bound to in the event handlers
    and in [create_items]: what [query] returned (a render action for a
    blank prompt, or the HTTP response), then the decoded body. *)
Inductive object : Type :=
| Render (a : RenderResultListAction)
| Http (r : Response)
| Json (v : json).

(** ** The runtime and the network *)

Class Host : Type := {
  (** [int(s)] for a [str] [s] *)
  py_int : string -> result Z;
  (** [float(s)] for a [str] [s] *)
  py_float : string -> result F;
  (** [repr(s)] for a [str] [s] *)
  py_repr : string -> string;
  (** [str(o)] *)
  py_str : object -> string;
  (** [json.dumps(v)] *)
  json_dumps : json -> string;
  (** [requests.post]: the response, or the exception it raises *)
  requests_post : http_request -> result Response
}.

End Values.

Arguments JNull {F}.
Arguments JBool {F} b.
Arguments JInt {F} n.
Arguments JString {F} s.
Arguments JFloat {F} x.
Arguments JArray {F} items.
Arguments JObject {F} members.
Arguments type_name {F} v.
Arguments dict_get {F} members key.
Arguments getitem {F} v key.
Arguments iterate {F} v.
Arguments Render {F} a.
Arguments Http {F} r.
Arguments Json {F} v.
Arguments status_code {F} r.
Arguments decoded {F} r.
Arguments Build_Response {F} status_code decoded.
Arguments py_int {F Host} s.
Arguments py_float {F Host} s.
Arguments py_repr {F Host} s.
Arguments py_str {F Host} o.
Arguments json_dumps {F Host} v.
Arguments requests_post {F Host} r.

(** [str(err)] for a caught exception: the message, and for a [KeyError]
    the [repr] of the key. *)
Definition str_exn {F : Type} {host : Host F} (err : exn) : string :=
  match err with
  | KeyError key => py_repr key
  | Exception msg | ValueError msg | TypeError msg
  | AttributeError msg | RequestException msg => msg
  end.

(** What a call did: the requests it handed to [requests.post], in order,
    and its outcome. *)
Record run (A : Type) : Type := {
  sent : list http_request;
  outcome : result A
}.
Arguments sent {A} r.
Arguments outcome {A} r.
Arguments Build_run {A} sent outcome.

(** ** [main.py] *)

Definition EXTENSION_ICON : string := "images/icon.png".
Definition ENDPOINT : string := "https://api.openai.com/v1/chat/completions".

Section Main.
Context {F : Type} {host : Host F}.

(** The [dict] that [query] serialises as the body of the request. *)
Definition request_body (search_term system_prompt : string)
    (temperature : F) (max_tokens : Z)
    (top_p frequency_penalty presence_penalty : F) (model : string)
    : json F :=
  JObject
    [ ("messages",
       JArray
         [ JObject [("role", JString "system");
                    ("content", JString system_prompt)];
           JObject [("role", JString "user");
                    ("content", JString search_term)] ]);
      ("temperature", JFloat temperature);
      ("max_tokens", JInt max_tokens);
      ("top_p", JFloat top_p);
      ("frequency_penalty", JFloat frequency_penalty);
      ("presence_penalty", JFloat presence_penalty);
      ("model", JString model) ].

(** [query]: for a blank [search_term] the render action of the prompt
    placeholder, and nothing is sent; otherwise one POST, whose response
    is returned and whose exception propagates. *)
Definition query (search_term system_prompt api_key : string)
    (temperature : F) (max_tokens : Z)
    (top_p frequency_penalty presence_penalty : F) (model : string)
    : run (object F) :=
  if String.eqb search_term "" then
    {| sent := [];
       outcome :=
         Ok (Render
               {| result_list :=
                    [ {| icon := EXTENSION_ICON;
                         name := "Type in a prompt...";
                         description := None;
                         on_enter := DoNothingAction |} ] |}) |}
  else
    let headers :=
      [ ("content-type", "application/json");
        ("Authorization", "Bearer " +:+ api_key) ] in
    let body :=
      json_dumps
        (request_body search_term system_prompt temperature max_tokens
           top_p frequency_penalty presence_penalty model) in
    let request :=
      {| url := ENDPOINT; headers := headers; data := body; timeout := 10 |} in
    {| sent := [request];
       outcome := response <- requests_post request ;; Ok (Http response) |}.

(** [response.json()]: only a [requests.Response] has the method.  On a
    body that is no JSON it raises a [JSONDecodeError], a [ValueError]
    whose text [create_items] never looks at. *)
Definition call_json (response : object F) : result (json F) :=
  match response with
  | Http r =>
      match decoded r with
      | Some body => Ok body
      | None => Raise (ValueError "Expecting value")
      end
  | Render _ =>
      Raise (AttributeError
               "'RenderResultListAction' object has no attribute 'json'")
  | Json v =>
      Raise (AttributeError
               ("'" +:+ type_name v +:+ "' object has no attribute 'json'"))
  end.

(** [response[key]]: of the three kinds of object only decoded JSON can
    be subscripted. *)
Definition subscript (response : object F) (key : string)
    : result (json F) :=
  match response with
  | Json v => getitem v key
  | Http _ => Raise (TypeError "'Response' object is not subscriptable")
  | Render _ =>
      Raise (TypeError "'RenderResultListAction' object is not subscriptable")
  end.

(** [wrap_text(message, line_wrap)] for whatever [content] holds: anything
    but a [str] has no [split]. *)
Definition wrap_content (message : json F) (line_wrap : Z)
    : result string :=
  match message with
  | JString text => Ok (wrap_text text line_wrap)
  | _ =>
      Raise (AttributeError
               ("'" +:+ type_name message +:+ "' object has no attribute 'split'"))
  end.

(** The body of the loop over [choices]: one item per choice. *)
Definition choice_item (line_wrap : Z) (choice : json F)
    : result ExtensionResultItem :=
  m <- getitem choice "message" ;;
  content <- getitem m "content" ;;
  message <- wrap_content content line_wrap ;;
  Ok {| icon := EXTENSION_ICON;
        name := "Assistant";
        description := Some message;
        on_enter := CopyToClipboardAction message |}.

(** The first [try] block of [create_items]:
    [response = response.json()], then [choices = response['choices']].
    The result is what [response] is bound to when the block is left (the
    decoded body once decoding succeeded, the original object otherwise)
    and the outcome of the block. *)
Definition decode_choices (response : object F)
    : object F * result (json F) :=
  match call_json response with
  | Ok body => (Json body, getitem body "choices")
  | Raise err => (response, Raise err)
  end.

(** [response['error']['message']]. *)
Definition error_message (response : object F) : result (json F) :=
  e <- subscript response "error" ;; getitem e "message".

(** The initial value of [errMsg]. *)
Definition default_errMsg : string :=
  "Unknown error, please check logs for more info".

(** [raise Exception(str(response) + errMsg)]: [+] on a [str] takes only a
    [str]. *)
Definition raise_failure (response : object F) (errMsg : json F)
    : result (list ExtensionResultItem) :=
  match errMsg with
  | JString errMsg => Raise (Exception (py_str response +:+ errMsg))
  | other =>
      Raise (TypeError
               ("can only concatenate str (not " +:+ DQ
                +:+ type_name other +:+ DQ +:+ ") to str"))
  end.

(** [create_items].  The [except] branch keeps [errMsg] at its initial
    value when the extraction raises.  The last [try] of the source only
    logs. *)
Definition create_items (response : object F) (line_wrap : Z)
    : result (list ExtensionResultItem) :=
  match decode_choices response with
  | (response, Raise _) =>
      let errMsg :=
        match error_message response with
        | Ok message => message
        | Raise _ => JString default_errMsg
        end in
      raise_failure response errMsg
  | (_, Ok choices) =>
      choices <- iterate choices ;;
      for_each (choice_item line_wrap) choices
  end.

(** The attributes [parse_prefs] assigns on the listener. *)
Record SettingsHandler : Type := {
  api_key : string;
  max_tokens : Z;
  frequency_penalty : F;
  presence_penalty : F;
  temperature : F;
  top_p : F;
  system_prompt : string;
  line_wrap : Z;
  model : string;
  wait_for_enter : Z
}.

(** [preferences[key]]. *)
Definition preference (preferences : gmap string string) (key : string)
    : result string :=
  match preferences !! key with
  | Some value => Ok value
  | None => Raise (KeyError key)
  end.

(** [parse_prefs], in the order of its assignments; every attribute is
    assigned before any is read, so a successful call is the record of the
    ten values. *)
Definition parse_prefs (preferences : gmap string string)
    : result SettingsHandler :=
  api_key <- preference preferences "api_key" ;;
  max_tokens <- (s <- preference preferences "max_tokens" ;; py_int s) ;;
  frequency_penalty <-
    (s <- preference preferences "frequency_penalty" ;; py_float s) ;;
  presence_penalty <-
    (s <- preference preferences "presence_penalty" ;; py_float s) ;;
  temperature <- (s <- preference preferences "temperature" ;; py_float s) ;;
  top_p <- (s <- preference preferences "top_p" ;; py_float s) ;;
  system_prompt <- preference preferences "system_prompt" ;;
  line_wrap <- (s <- preference preferences "line_wrap" ;; py_int s) ;;
  model <- preference preferences "model" ;;
  wait_for_enter <-
    (s <- preference preferences "wait_before_query" ;; py_int s) ;;
  Ok {| api_key := api_key; max_tokens := max_tokens;
        frequency_penalty := frequency_penalty;
        presence_penalty := presence_penalty;
        temperature := temperature; top_p := top_p;
        system_prompt := system_prompt; line_wrap := line_wrap;
        model := model; wait_for_enter := wait_for_enter |}.

(** The one-item list both handlers return for a caught exception. *)
Definition error_item (title : string) (err : exn) : RenderResultListAction :=
  {| result_list :=
       [ {| icon := EXTENSION_ICON;
            name := title +:+ str_exn err;
            description := None;
            on_enter := CopyToClipboardAction (str_exn err) |} ] |}.

(** The part the two handlers share, from the call of [query] on: the
    call is inside a [try], the call of [create_items] is not. *)
Definition query_and_render (self : SettingsHandler) (search_term : string)
    : run RenderResultListAction :=
  let call :=
    query search_term (system_prompt self) (api_key self) (temperature self)
      (max_tokens self) (top_p self) (frequency_penalty self)
      (presence_penalty self) (model self) in
  match outcome call with
  | Raise err =>
      {| sent := sent call;
         outcome := Ok (error_item "Request failed: " err) |}
  | Ok response =>
      {| sent := sent call;
         outcome :=
           items <- create_items response (line_wrap self) ;;
           Ok {| result_list := items |} |}
  end.

End Main.

Arguments SettingsHandler F : clear implicits.

(** [ItemEnterEventListener.on_event]; [data] is [event.get_data()]. *)
Module ItemEnterEventListener.

Definition on_event {F : Type} {host : Host F} (data : string)
    (preferences : gmap string string) : run RenderResultListAction :=
  match parse_prefs preferences with
  | Raise err =>
      {| sent := [];
         outcome := Ok (error_item "Failed to parse preferences: " err) |}
  | Ok self =>
      let search_term := data in
      query_and_render self search_term
  end.

End ItemEnterEventListener.

(** [KeywordQueryEventListener.on_event]; [argument] is
    [event.get_argument()], which is [None] when the keyword stands
    alone. *)
Module KeywordQueryEventListener.

(** [str(argument)]. *)
Definition str_argument (argument : option string) : string :=
  match argument with
  | Some text => text
  | None => "None"
  end.

Definition on_event {F : Type} {host : Host F} (argument : option string)
    (preferences : gmap string string) : run RenderResultListAction :=
  match parse_prefs preferences with
  | Raise err =>
      {| sent := [];
         outcome := Ok (error_item "Failed to parse preferences: " err) |}
  | Ok self =>
      let search_term := str_argument argument in
      if negb (wait_for_enter self =? 0) then
        {| sent := [];
           outcome :=
             Ok {| result_list :=
                     [ {| icon := EXTENSION_ICON;
                          name := "Waiting until Enter is pressed: "
                                  +:+ search_term;
                          description := None;
                          on_enter :=
                            ExtensionCustomAction search_term true |} ] |} |}
      else query_and_render self search_term
  end.

End KeywordQueryEventListener.

(** ** A host for the concrete runs

    An executable [Host] with [F := Q], used for the runs at concrete
    inputs below.  It follows CPython on this fragment: strings of
    characters below 256, integers of at most 4300 digits, floats written
    as plain decimal numerals ([12], [0.5], [-3.25]) of at most 15 digits
    and of magnitude between 1e-4 and 1e16, which a [Q] holds exactly
    (outside that fragment [float] and the printing of floats do more
    than this host does).  The network is a parameter of the host. *)
Module Sample.

Definition digit_of (c : ascii) : option Z :=
  let n := nat_of_ascii c in
  if ((48 <=? n) && (n <=? 57))%nat then Some (Z.of_nat (n - 48)) else None.

(** Decimal digits with single underscores between them; [ready] tells
    that a digit has just been read. *)
Fixpoint digits (acc : Z) (ready : bool) (s : string) : option Z :=
  match s with
  | EmptyString => if ready then Some acc else None
  | String c rest =>
      match digit_of c with
      | Some d => digits (10 * acc + d) true rest
      | None =>
          if Ascii.eqb c "_" && ready then digits acc false rest else None
      end
  end.

(** The whitespace that [int] and [float] skip around a numeral. *)
Definition numeric_space (c : ascii) : bool :=
  let n := nat_of_ascii c in
  ((9 <=? n) && (n <=? 13) || (n =? 32) || (n =? 133) || (n =? 160))%nat.

Fixpoint skip_left (s : string) : string :=
  match s with
  | EmptyString => ""
  | String c rest => if numeric_space c then skip_left rest else s
  end.

Fixpoint skip_right (s : string) : string :=
  match s with
  | EmptyString => ""
  | String c rest =>
      match skip_right rest with
      | EmptyString => if numeric_space c then "" else String c ""
      | kept => String c kept
      end
  end.

(** The sign of a numeral and what follows it. *)
Definition signed (s : string) : bool * string :=
  match s with
  | String "-" rest => (true, rest)
  | String "+" rest => (false, rest)
  | _ => (false, s)
  end.

Definition hex_digit (n : nat) : string :=
  String.substring n 1 "0123456789abcdef".

(** One character inside [repr(s)] quoted by [quote]. *)
Definition repr_char (quote c : ascii) : string :=
  let n := nat_of_ascii c in
  if Ascii.eqb c "\" then "\\"
  else if Ascii.eqb c quote then String "\" (String c "")
  else if (n =? 9)%nat then "\t"
  else if (n =? 10)%nat then "\n"
  else if (n =? 13)%nat then "\r"
  else if ((n <? 32) || (127 <=? n) && (n <=? 160) || (n =? 173))%nat
       then "\x" +:+ hex_digit (n / 16) +:+ hex_digit (n mod 16)
  else String c "".

Fixpoint repr_chars (quote : ascii) (s : string) : string :=
  match s with
  | EmptyString => ""
  | String c rest => repr_char quote c +:+ repr_chars quote rest
  end.

(** [repr(s)]: single quotes, unless [s] has a single quote and no double
    quote. *)
Definition repr (s : string) : string :=
  let quote : ascii :=
    if has_char "'" s && negb (has_char DQUOTE s) then DQUOTE else "'"%char in
  String quote (repr_chars quote s) +:+ String quote "".

(** [int(s)]. *)
Definition int (s : string) : result Z :=
  let '(negative, numeral) := signed (skip_right (skip_left s)) in
  match digits 0 false numeral with
  | Some n => Ok (if negative then - n else n)
  | None =>
      Raise (ValueError ("invalid literal for int() with base 10: " +:+ repr s))
  end.

Definition all_digits (s : string) : bool :=
  negb (String.eqb s "")
  && forallb (fun c => match digit_of c with Some _ => true | None => false end)
       (list_ascii_of_string s).

(** The text before the first point of [s], and the text after it when
    there is a point. *)
Fixpoint at_point (s : string) : string * option string :=
  match s with
  | EmptyString => ("", None)
  | String c rest =>
      if Ascii.eqb c "." then ("", Some rest)
      else let '(whole, fraction) := at_point rest in (String c whole, fraction)
  end.

(** [float(s)] for a plain decimal numeral. *)
Definition float (s : string) : result Q :=
  let '(negative, numeral) := signed (skip_right (skip_left s)) in
  let '(whole, fraction) := at_point numeral in
  let fraction := default "" fraction in
  let scale :=
    match fraction with
    | EmptyString => 1%positive
    | _ => Pos.pow 10 (Pos.of_nat (String.length fraction))
    end in
  if all_digits (whole +:+ fraction) then
    match digits 0 false (whole +:+ fraction) with
    | Some n => Ok (Qmake (if negative then - n else n) scale)
    | None =>
        Raise (ValueError ("could not convert string to float: " +:+ repr s))
    end
  else Raise (ValueError ("could not convert string to float: " +:+ repr s)).

Definition decimal (n : Z) : string := NilZero.string_of_int (Z.to_int n).

(** The digits of [r / d] after the point, for [0 <= r < d]. *)
Fixpoint fraction_digits (fuel : nat) (r d : Z) : string :=
  match fuel with
  | O => ""
  | S fuel =>
      if r =? 0 then ""
      else decimal (10 * r / d) +:+ fraction_digits fuel (10 * r mod d) d
  end.

(** [repr(x)] for a float. *)
Definition repr_float (x : Q) : string :=
  let n := Qnum x in
  let d := Z.pos (Qden x) in
  let fraction := fraction_digits 20 (Z.abs n mod d) d in
  (if n <? 0 then "-" else "") +:+ decimal (Z.abs n / d) +:+ "."
  +:+ (if String.eqb fraction "" then "0" else fraction).

(** [repr(v)] for decoded JSON. *)
Fixpoint repr_json (v : json Q) : string :=
  match v with
  | JNull => "None"
  | JBool b => if b then "True" else "False"
  | JInt n => decimal n
  | JFloat x => repr_float x
  | JString s => repr s
  | JArray items =>
      "[" +:+ join ", " (map repr_json items) +:+ "]"
  | JObject members =>
      "{" +:+ join ", " (map (fun kv => repr (fst kv) +:+ ": " +:+ repr_json (snd kv))
                          members) +:+ "}"
  end.

(** [str(o)]; the address in the text of a plain object is whatever the
    allocator gave, here a fixed one. *)
Definition str (o : object Q) : string :=
  match o with
  | Json (JString s) => s
  | Json v => repr_json v
  | Http r => "<Response [" +:+ decimal (status_code r) +:+ "]>"
  | Render _ =>
      "<ulauncher.api.shared.action.RenderResultListAction."
      +:+ "RenderResultListAction object at 0x7f3a5c0d2e90>"
  end.

(** One character inside a JSON string literal ([ensure_ascii]). *)
Definition dumps_char (c : ascii) : string :=
  let n := nat_of_ascii c in
  if Ascii.eqb c "\" then "\\"
  else if Ascii.eqb c DQUOTE then String "\" (String c "")
  else if (n =? 8)%nat then "\b"
  else if (n =? 9)%nat then "\t"
  else if (n =? 10)%nat then "\n"
  else if (n =? 12)%nat then "\f"
  else if (n =? 13)%nat then "\r"
  else if ((n <? 32) || (127 <=? n))%nat
       then "\u00" +:+ hex_digit (n / 16) +:+ hex_digit (n mod 16)
  else String c "".

Fixpoint dumps_chars (s : string) : string :=
  match s with
  | EmptyString => ""
  | String c rest => dumps_char c +:+ dumps_chars rest
  end.

Definition dumps_string (s : string) : string :=
  DQ +:+ dumps_chars s +:+ DQ.

(** [json.dumps(v)] with its default separators. *)
Fixpoint dumps (v : json Q) : string :=
  match v with
  | JNull => "null"
  | JBool b => if b then "true" else "false"
  | JInt n => decimal n
  | JFloat x => repr_float x
  | JString s => dumps_string s
  | JArray items => "[" +:+ join ", " (map dumps items) +:+ "]"
  | JObject members =>
      "{" +:+ join ", " (map (fun kv => dumps_string (fst kv) +:+ ": " +:+ dumps (snd kv))
                          members) +:+ "}"
  end.

(** The host over a given network. *)
Definition host (network : http_request -> result (Response Q)) : Host Q :=
  {| py_int := int; py_float := float; py_repr := repr; py_str := str;
     json_dumps := dumps; requests_post := network |}.

(** The preferences of the end-to-end example of the specification. *)
Definition preferences : gmap string string :=
  list_to_map
    [ ("api_key", "k"); ("model", "m"); ("temperature", "0.5");
      ("max_tokens", "16"); ("top_p", "1"); ("frequency_penalty", "0");
      ("presence_penalty", "0"); ("system_prompt", "sys");
      ("line_wrap", "20"); ("wait_before_query", "0") ].

(** What [parse_prefs] makes of them. *)
Definition settings : SettingsHandler Q :=
  {| api_key := "k"; max_tokens := 16;
     frequency_penalty := Qmake 0 1; presence_penalty := Qmake 0 1;
     temperature := Qmake 5 10; top_p := Qmake 1 1;
     system_prompt := "sys"; line_wrap := 20; model := "m";
     wait_for_enter := 0 |}.

(** The same preferences with a [max_tokens] that is no numeral. *)
Definition bad_max_tokens : gmap string string :=
  <["max_tokens" := "abc"]> preferences.

(** The body of a successful completion with one candidate. *)
Definition hello_body : json Q :=
  JObject
    [ ("choices",
       JArray
         [ JObject
             [ ("message",
                JObject [ ("role", JString "assistant");
                          ("content", JString "hello world") ]) ] ]) ].

(** The body the service answers to a wrong key. *)
Definition bad_key_body : json Q :=
  JObject [ ("error", JObject [ ("message", JString "bad key") ]) ].

(** A body whose ["choices"] is a [dict], not a [list]. *)
Definition dict_choices_body : json Q :=
  JObject [ ("choices", JObject []) ].

(** Networks that answer every request with one fixed response. *)
Definition answers (status : Z) (body : json Q)
    : http_request -> result (Response Q) :=
  fun _ => Ok {| status_code := status; decoded := Some body |}.

(** The host whose service rejects the key, and the host whose service
    completes. *)
Definition bad_key_host : Host Q := host (answers 401 bad_key_body).
Definition hello_host : Host Q := host (answers 200 hello_body).

(** Their responses. *)
Definition bad_key_response : Response Q :=
  {| status_code := 401; decoded := Some bad_key_body |}.
Definition hello_response : Response Q :=
  {| status_code := 200; decoded := Some hello_body |}.
Definition dict_choices_response : Response Q :=
  {| status_code := 200; decoded := Some dict_choices_body |}.

(** The same preferences, asking to wait for Enter. *)
Definition waiting : gmap string string :=
  <["wait_before_query" := "1"]> preferences.

Definition waiting_settings : SettingsHandler Q :=
  {| api_key := "k"; max_tokens := 16;
     frequency_penalty := Qmake 0 1; presence_penalty := Qmake 0 1;
     temperature := Qmake 5 10; top_p := Qmake 1 1;
     system_prompt := "sys"; line_wrap := 20; model := "m";
     wait_for_enter := 1 |}.

(** A network on which every request times out. *)
Definition timed_out : exn :=
  RequestException
    ("HTTPSConnectionPool(host='api.openai.com', port=443): "
     +:+ "Read timed out. (read timeout=10)").

Definition silent_host : Host Q := host (fun _ => Raise timed_out).

(** A completion whose second candidate has no text. *)
Definition null_content_body : json Q :=
  JObject
    [ ("choices",
       JArray
         [ JObject
             [ ("message",
                JObject [ ("role", JString "assistant");
                          ("content", JString "hello world") ]) ];
           JObject
             [ ("message",
                JObject [ ("role", JString "assistant");
                          ("content", JNull) ]) ] ]) ].

Definition null_content_response : Response Q :=
  {| status_code := 200; decoded := Some null_content_body |}.

End Sample.

(** ** Vocabulary of the statements *)

(** A string without whitespace, and a token: a non-empty one. *)
Fixpoint no_space (s : string) : bool :=
  match s with
  | EmptyString => true
  | String c rest => negb (isspace c) && no_space rest
  end.

Definition token (s : string) : Prop := s <> "" /\ no_space s = true.

(** The value of [current_line] while the words [g] are on it: with a
    leading space when the line was started from the empty string, bare
    when it was started by a flush. *)
Definition pad (padded : bool) (g : list string) : string :=
  (if padded then " " else "") +:+ join " " g.

(** [current_line] on the first line, while the words [g] are on it. *)
Definition first_line (g : list string) : string :=
  match g with
  | [] => ""
  | _ => " " +:+ join " " g
  end.

(** A string of whitespace only. *)
Fixpoint all_space (s : string) : bool :=
  match s with
  | EmptyString => true
  | String c rest => isspace c && all_space rest
  end.

(** In the group [g] of the words of one line, a word longer than [max_w]
    is the only word. *)
Definition alone (max_w : Z) (g : list string) : Prop :=
  forall w, In w g -> max_w < len w -> g = [w].

(** Every line break was needed: a line with the first word of the next
    line added after a space would be longer than [max_w]. *)
Fixpoint breaks_needed (max_w : Z) (groups : list (list string)) : Prop :=
  match groups with
  | [] => True
  | g :: rest =>
      match rest with
      | (w :: _) :: _ => max_w < len (join " " (g ++ [w]))
      | _ => True
      end
      /\ breaks_needed max_w rest
  end.

(** The whitespace characters of [str.split()] and [str.isspace()] below
    256, one by one: tab, line feed, vertical tab, form feed, carriage
    return, the four separators FS, GS, RS and US, the space, NEL and the
    no-break space. *)
Definition WHITESPACE : list ascii :=
  [ "009"; "010"; "011"; "012"; "013"; "028"; "029"; "030"; "031"; " ";
    "133"; "160" ]%char.

(** A string made of the characters [chars] only, and a string with none
    of them. *)
Fixpoint only (chars : list ascii) (s : string) : bool :=
  match s with
  | EmptyString => true
  | String c rest => existsb (Ascii.eqb c) chars && only chars rest
  end.

Fixpoint none_of (chars : list ascii) (s : string) : bool :=
  match s with
  | EmptyString => true
  | String c rest => negb (existsb (Ascii.eqb c) chars) && none_of chars rest
  end.

(** A text written out as its parts: a leading run of whitespace, then
    pieces, each a word followed by the run of whitespace after it. *)
Fixpoint pieces_text (pieces : list (string * string)) : string :=
  match pieces with
  | [] => ""
  | (word, run) :: rest => word +:+ run +:+ pieces_text rest
  end.

Definition spaced (lead : string) (pieces : list (string * string)) : string :=
  lead +:+ pieces_text pieces.

(** The run after every word but the last is not empty. *)
Fixpoint runs_between (pieces : list (string * string)) : Prop :=
  match pieces with
  | [] => True
  | (_, run) :: rest =>
      match rest with
      | [] => True
      | _ => run <> ""
      end
      /\ runs_between rest
  end.

(** The parts are those of a text: the runs are made of whitespace
    characters, the words are not empty and hold none, and two words are
    kept apart by at least one whitespace character. *)
Definition well_spaced (lead : string) (pieces : list (string * string))
    : Prop :=
  only WHITESPACE lead = true
  /\ Forall (fun piece =>
               fst piece <> ""
               /\ none_of WHITESPACE (fst piece) = true
               /\ only WHITESPACE (snd piece) = true) pieces
  /\ runs_between pieces.

Section Vocabulary.
Context {F : Type} {host : Host F}.

(** The request [query] sends for the settings [self] and a non-blank
    [search_term]. *)
Definition request_of (self : SettingsHandler F) (search_term : string)
    : http_request :=
  {| url := ENDPOINT;
     headers := [ ("content-type", "application/json");
                  ("Authorization", "Bearer " +:+ api_key self) ];
     data := json_dumps
               (request_body search_term (system_prompt self)
                  (temperature self) (max_tokens self) (top_p self)
                  (frequency_penalty self) (presence_penalty self)
                  (model self));
     timeout := 10 |}.

(** [choice['message']['content']]. *)
Definition content_of (choice : json F) : result (json F) :=
  m <- getitem choice "message" ;; getitem m "content".

(** The item shown for one candidate text. *)
Definition candidate_item (line_wrap : Z) (text : string)
    : ExtensionResultItem :=
  {| icon := EXTENSION_ICON;
     name := "Assistant";
     description := Some (wrap_text text line_wrap);
     on_enter := CopyToClipboardAction (wrap_text text line_wrap) |}.

(** What [response] is bound to in the [except] branch of [create_items]
    when [query] returned the HTTP response [response]. *)
Definition rebound (response : Response F) : object F :=
  match decoded response with
  | Some body => Json body
  | None => Http response
  end.

(** The body cannot be decoded, or subscripting it with ["choices"]
    raises: it is no [dict], or a [dict] without that key. *)
Definition no_choices (response : Response F) : Prop :=
  match decoded response with
  | Some body => forall choices, getitem body "choices" <> Ok choices
  | None => True
  end.

(** The preference [key] is there and [int], or [float], turns it into
    the given number. *)
Definition int_pref (preferences : gmap string string) (key : string)
    (n : Z) : Prop :=
  exists s, preferences !! key = Some s /\ py_int s = Ok n.

Definition float_pref (preferences : gmap string string) (key : string)
    (x : F) : Prop :=
  exists s, preferences !! key = Some s /\ py_float s = Ok x.

End Vocabulary.


(** * Properties *)

(** ** Strings *)

Lemma sapp_nil_l (s : string) : "" +:+ s = s.
Proof. reflexivity. Qed.

Lemma sapp_cons (c : ascii) (s t : string) :
  String c s +:+ t = String c (s +:+ t).
Proof. reflexivity. Qed.

Lemma sapp_nil_r (s : string) : s +:+ "" = s.
Proof. induction s as [|c s IH]; [reflexivity|]. by rewrite sapp_cons, IH. Qed.

Lemma sapp_assoc (s t u : string) : (s +:+ t) +:+ u = s +:+ (t +:+ u).
Proof.
  induction s as [|c s IH]; [reflexivity|]. by rewrite !sapp_cons, IH.
Qed.

Lemma sapp_eq_nil (s t : string) : s +:+ t = "" -> s = "" /\ t = "".
Proof.
  destruct s; [rewrite sapp_nil_l; auto | rewrite sapp_cons; discriminate].
Qed.

Lemma slength_app (s t : string) :
  String.length (s +:+ t) = (String.length s + String.length t)%nat.
Proof.
  induction s as [|c s IH]; [reflexivity|].
  rewrite sapp_cons. simpl. by rewrite IH.
Qed.

Lemma len_app (s t : string) : len (s +:+ t) = len s + len t.
Proof. unfold len. rewrite slength_app. lia. Qed.

Lemma len_nonneg (s : string) : 0 <= len s.
Proof. unfold len. lia. Qed.

Lemma eqb_nonempty (s : string) : s <> "" -> String.eqb s "" = false.
Proof. by intros ?%String.eqb_neq. Qed.

Lemma no_space_app (s t : string) :
  no_space (s +:+ t) = no_space s && no_space t.
Proof.
  induction s as [|c s IH]; [reflexivity|].
  rewrite sapp_cons. simpl. rewrite IH. by rewrite andb_assoc.
Qed.

(** ** [split] *)

Lemma split_from_tokens (text word : string) :
  no_space word = true -> Forall token (split_from word text).
Proof.
  revert word. induction text as [|c rest IH]; intros word Hw; simpl.
  - destruct (String.eqb word "") eqn:E; [constructor|].
    apply String.eqb_neq in E. repeat constructor; done.
  - destruct (isspace c) eqn:Hc.
    + destruct (String.eqb word "") eqn:E; [by apply IH|].
      apply String.eqb_neq in E. constructor; [done | by apply IH].
    + apply IH. rewrite no_space_app, Hw. simpl. by rewrite Hc.
Qed.

(** Every token of [text.split()] is non-empty and free of whitespace. *)
Lemma split_tokens (text : string) : Forall token (split text).
Proof. by apply split_from_tokens. Qed.

Lemma split_from_token (w word rest : string) :
  no_space w = true ->
  split_from word (w +:+ rest) = split_from (word +:+ w) rest.
Proof.
  revert word. induction w as [|c w IH]; intros word Hw.
  - by rewrite sapp_nil_l, sapp_nil_r.
  - simpl in Hw. apply andb_true_iff in Hw as [Hc Hw].
    apply negb_true_iff in Hc.
    rewrite sapp_cons. simpl. rewrite Hc, IH by done.
    by rewrite sapp_assoc.
Qed.

(** Splitting tokens joined by single spaces gives the tokens back. *)
Lemma split_join (ws : list string) :
  Forall token ws -> split (join " " ws) = ws.
Proof.
  unfold split, join. induction 1 as [|w ws [Hne Hw] Hws IH]; [reflexivity|].
  simpl. apply eqb_nonempty in Hne. destruct ws as [|w' ws].
  - rewrite <- (sapp_nil_r w) at 1. rewrite split_from_token by done.
    rewrite sapp_nil_l. simpl. by rewrite Hne.
  - rewrite split_from_token by done. rewrite sapp_nil_l, sapp_cons. simpl.
    rewrite Hne. f_equal. apply IH.
Qed.

(** ** [join] and [strip] *)

Lemma join_cons (sep w : string) (ws : list string) :
  ws <> [] -> join sep (w :: ws) = w +:+ sep +:+ join sep ws.
Proof. by destruct ws. Qed.

Lemma join_app (sep : string) (a b : list string) :
  a <> [] -> b <> [] ->
  join sep (a ++ b) = join sep a +:+ sep +:+ join sep b.
Proof.
  intros Ha Hb. induction a as [|v a IH]; [done|].
  destruct a as [|v' a].
  - simpl. by destruct b.
  - change ((v :: v' :: a) ++ b) with (v :: ((v' :: a) ++ b)).
    rewrite join_cons by done. rewrite IH by done.
    rewrite (join_cons sep v (v' :: a)) by done. by rewrite !sapp_assoc.
Qed.

Lemma join_snoc (sep w : string) (ws : list string) :
  ws <> [] -> join sep (ws ++ [w]) = join sep ws +:+ sep +:+ w.
Proof. intros Hws. by rewrite join_app. Qed.

Lemma len_join_prefix (sep : string) (a b : list string) :
  len (join sep a) <= len (join sep (a ++ b)).
Proof.
  destruct b as [|w b]; [by rewrite app_nil_r|].
  destruct a as [|v a]; [apply len_nonneg|].
  rewrite join_app by done. rewrite !len_app.
  pose proof (len_nonneg sep). pose proof (len_nonneg (join sep (w :: b))).
  lia.
Qed.

Lemma rstrip_no_space (s : string) : no_space s = true -> rstrip s = s.
Proof.
  induction s as [|c s IH]; [reflexivity|]. simpl.
  intros [Hc Hs]%andb_true_iff. rewrite IH by done.
  destruct s; [|reflexivity]. by apply negb_true_iff in Hc as ->.
Qed.

Lemma rstrip_app (s t : string) :
  t <> "" -> rstrip t = t -> rstrip (s +:+ t) = s +:+ t.
Proof.
  intros Hne Ht. induction s as [|c s IH]; [by rewrite sapp_nil_l|].
  rewrite sapp_cons. simpl. rewrite IH.
  destruct (s +:+ t) eqn:E; [|reflexivity].
  by apply sapp_eq_nil in E as [_ ?].
Qed.

Lemma lstrip_token_app (w rest : string) :
  token w -> lstrip (w +:+ rest) = w +:+ rest.
Proof.
  intros [Hne Hw]. destruct w as [|c w]; [done|].
  simpl in Hw. apply andb_true_iff in Hw as [Hc _].
  apply negb_true_iff in Hc. rewrite sapp_cons. simpl. by rewrite Hc.
Qed.

(** Tokens joined by single spaces have nothing to strip. *)
Lemma strip_join (g : list string) :
  Forall token g -> strip (join " " g) = join " " g.
Proof.
  intros Hg. unfold strip. destruct g as [|w ws]; [reflexivity|].
  assert (lstrip (join " " (w :: ws)) = join " " (w :: ws)) as ->.
  { apply Forall_cons in Hg as [Hw _]. destruct ws as [|v ws].
    - rewrite <- (sapp_nil_r w). by apply lstrip_token_app.
    - rewrite join_cons by done. by apply lstrip_token_app. }
  destruct (exists_last (l := w :: ws)) as (init & z & E); [done|].
  rewrite E in *. apply Forall_app in Hg as [_ Hz].
  apply Forall_cons in Hz as [[Hne Hz] _].
  destruct init as [|v init].
  - simpl. by apply rstrip_no_space.
  - rewrite join_snoc by done. rewrite <- sapp_assoc.
    apply rstrip_app; [done | by apply rstrip_no_space].
Qed.

Lemma strip_space (s : string) : strip (" " +:+ s) = strip s.
Proof. reflexivity. Qed.

Lemma strip_pad (padded : bool) (g : list string) :
  Forall token g -> strip (pad padded g) = join " " g.
Proof.
  intros Hg. unfold pad. destruct padded.
  - rewrite strip_space. by apply strip_join.
  - rewrite sapp_nil_l. by apply strip_join.
Qed.

Lemma pad_snoc (padded : bool) (g : list string) (w : string) :
  g <> [] -> pad padded g +:+ " " +:+ w = pad padded (g ++ [w]).
Proof. intros Hg. unfold pad. by rewrite join_snoc, !sapp_assoc. Qed.

Lemma strip_first_line (g : list string) :
  Forall token g -> strip (first_line g) = join " " g.
Proof.
  intros Hg. destruct g as [|v g]; [reflexivity|].
  unfold first_line. rewrite strip_space. by apply strip_join.
Qed.

Lemma len_first_line_snoc (g : list string) (w : string) :
  len (first_line g +:+ w) = len (join " " (g ++ [w])).
Proof.
  destruct g as [|v g]; [reflexivity|].
  rewrite join_snoc by done. unfold first_line. rewrite !len_app. lia.
Qed.

Lemma first_line_snoc (g : list string) (w : string) :
  first_line g +:+ " " +:+ w = first_line (g ++ [w]).
Proof.
  destruct g as [|v g]; [reflexivity|].
  change (first_line ((v :: g) ++ [w]))
    with (" " +:+ join " " ((v :: g) ++ [w])).
  rewrite join_snoc by done. unfold first_line. by rewrite !sapp_assoc.
Qed.

Lemma len_lstrip (s : string) : len (lstrip s) <= len s.
Proof.
  unfold len. induction s as [|c s IH]; [done|]. simpl.
  destruct (isspace c); simpl; lia.
Qed.

Lemma len_rstrip (s : string) : len (rstrip s) <= len s.
Proof.
  unfold len. induction s as [|c s IH]; [done|]. simpl.
  destruct (rstrip s); [destruct (isspace c)|]; simpl in *; lia.
Qed.

Lemma len_strip (s : string) : len (strip s) <= len s.
Proof.
  unfold strip. pose proof (len_rstrip (lstrip s)).
  pose proof (len_lstrip s). lia.
Qed.

(** ** The text wrapper *)

(** The loop keeps the words in order and cuts them into groups; what it
    flushes is a group joined by single spaces.  [g] is the group on
    [current_line]. *)
Lemma wrap_loop_groups (max_w : Z) (words : list string) :
  forall (lines : list string) (padded : bool) (g : list string),
    g <> [] -> Forall token (g ++ words) ->
    exists (gs : list (list string)) (g' : list string) (padded' : bool),
      wrap_loop max_w words lines (pad padded g)
      = (lines ++ map (join " ") gs, pad padded' g')
      /\ concat gs ++ g' = g ++ words
      /\ Forall (fun x => x <> []) gs
      /\ g' <> [].
Proof.
  induction words as [|w words IH]; intros lines padded g Hg Htok.
  - exists [], g, padded. simpl. by rewrite !app_nil_r.
  - simpl. destruct (len (pad padded g +:+ w) <=? max_w).
    + rewrite pad_snoc by done.
      destruct (IH lines padded (g ++ [w]))
        as (gs & g' & p' & E & Hc & Hne & Hg').
      { by destruct g. }
      { by rewrite <- List.app_assoc. }
      exists gs, g', p'. rewrite E, Hc, <- List.app_assoc. done.
    + assert (Forall token g) as Hgt by (by apply Forall_app in Htok as [? _]).
      rewrite strip_pad by done.
      destruct (IH (lines ++ [join " " g]) false [w])
        as (gs & g' & p' & E & Hc & Hne & Hg'); [done| |].
      { by apply Forall_app in Htok as [_ ?]. }
      exists (g :: gs), g', p'. change (pad false [w]) with w in E.
      rewrite E. simpl. rewrite <- !List.app_assoc. simpl.
      split; [done|]. split; [by rewrite Hc|]. split; [by constructor | done].
Qed.

(** The lines of [wrap_text] are the tokens of the text, in order, cut
    into groups.  Only the first group can be empty, and it is when there
    is no token at all or when the first token is longer than [max_w]. *)
Lemma wrap_lines_groups (text : string) (max_w : Z) :
  exists groups : list (list string),
    wrap_lines text max_w = map (join " ") groups
    /\ concat groups = split text
    /\ groups <> []
    /\ Forall (fun g => g <> []) (tail groups)
    /\ (head groups = Some [] ->
        match split text with [] => True | w :: _ => max_w < len w end).
Proof.
  unfold wrap_lines. pose proof (split_tokens text) as Htok.
  destruct (split text) as [|w words] eqn:Hsplit.
  - exists [[]]. simpl. repeat split; try done.
  - simpl. rewrite !sapp_nil_l.
    destruct (len w <=? max_w) eqn:Hlen.
    + change (wrap_loop max_w words [] (" " +:+ w))
        with (wrap_loop max_w words [] (pad true [w])).
      destruct (wrap_loop_groups max_w words [] true [w])
        as (gs & g' & p' & E & Hc & Hne & Hg'); [done|done|].
      exists (gs ++ [g']). rewrite E. simpl.
      assert (Forall token g') as Hgt.
      { assert (Forall token (concat gs ++ g')) as H by (by rewrite Hc).
        by apply Forall_app in H as [_ ?]. }
      rewrite strip_pad by done. rewrite map_app. simpl.
      split; [done|].
      split; [by rewrite concat_app; simpl; rewrite app_nil_r|].
      split; [by destruct gs|]. split.
      * destruct gs as [|x gs]; simpl; [constructor|].
        apply Forall_app. split; [by apply Forall_cons in Hne as [_ ?]|].
        by constructor.
      * destruct gs as [|x gs]; simpl; intros [= ->]; [done|].
        by apply Forall_cons in Hne as [? _].
    + change (wrap_loop max_w words [strip ""] w)
        with (wrap_loop max_w words [""] (pad false [w])).
      destruct (wrap_loop_groups max_w words [""] false [w])
        as (gs & g' & p' & E & Hc & Hne & Hg'); [done|done|].
      exists ([] :: gs ++ [g']). rewrite E. simpl.
      assert (Forall token g') as Hgt.
      { assert (Forall token (concat gs ++ g')) as H by (by rewrite Hc).
        by apply Forall_app in H as [_ ?]. }
      rewrite strip_pad by done. rewrite map_app. simpl.
      split; [done|].
      split; [by rewrite concat_app; simpl; rewrite app_nil_r|].
      split; [done|]. split.
      * apply Forall_app. split; [done | by constructor].
      * intros _. apply Z.leb_gt in Hlen. lia.
Qed.

(** While everything read so far fits, the loop flushes nothing. *)
Lemma wrap_loop_fits (max_w : Z) (words : list string) :
  forall g : list string,
    len (join " " (g ++ words)) <= max_w ->
    wrap_loop max_w words [] (first_line g) = ([], first_line (g ++ words)).
Proof.
  induction words as [|w words IH]; intros g Hlen.
  - by rewrite app_nil_r.
  - simpl. rewrite len_first_line_snoc.
    assert (len (join " " (g ++ [w])) <= max_w) as Hw.
    { pose proof (len_join_prefix " " (g ++ [w]) words) as H.
      rewrite <- List.app_assoc in H. simpl in H. lia. }
    apply Z.leb_le in Hw. rewrite Hw, first_line_snoc.
    rewrite IH; rewrite <- List.app_assoc; done.
Qed.

(** What the loop does guarantee: a line is never more than one
    character wider than [max_w] when every token fits. *)
Lemma wrap_loop_width (max_w : Z) (words : list string) :
  Forall (fun w => len w <= max_w) words ->
  forall (lines : list string) (current_line : string),
    Forall (fun l => len l <= max_w + 1) lines ->
    len current_line <= max_w + 1 ->
    let '(lines', current_line') := wrap_loop max_w words lines current_line in
    Forall (fun l => len l <= max_w + 1) lines'
    /\ len current_line' <= max_w + 1.
Proof.
  induction 1 as [|w words Hw Hwords IH]; intros lines current Hlines Hcur.
  - done.
  - simpl. destruct (len (current +:+ w) <=? max_w) eqn:E.
    + apply IH; [done|]. apply Z.leb_le in E.
      rewrite !len_app in *. change (len " ") with 1. lia.
    + apply IH; [|lia]. apply Forall_app. split; [done|].
      constructor; [|done]. pose proof (len_strip current). lia.
Qed.

(** X5: when no token is longer than [max_w], no line of [wrap_text] is
    longer than [max_w + 1]. *)
Lemma wrap_lines_width (text : string) (max_w : Z) :
  0 <= max_w ->
  Forall (fun w => len w <= max_w) (split text) ->
  Forall (fun l => len l <= max_w + 1) (wrap_lines text max_w).
Proof.
  intros Hpos Hw. unfold wrap_lines.
  pose proof (wrap_loop_width max_w (split text) Hw [] "") as H.
  destruct (wrap_loop max_w (split text) [] "") as [lines current].
  destruct H as [Hl Hc]; [done | by change (len "") with 0; lia |].
  apply Forall_app. split; [done|]. constructor; [|done].
  pose proof (len_strip current). lia.
Qed.

(** The first line is never wider than [max_w]: while no line has been
    flushed, [current_line] is empty or a space followed by at most
    [max_w] characters. *)
Lemma wrap_loop_first_line (max_w : Z) (words : list string) :
  0 <= max_w ->
  forall (lines : list string) (current_line : string),
    match lines with
    | [] => current_line = ""
            \/ exists s, current_line = " " +:+ s /\ len s <= max_w
    | first :: _ => len first <= max_w
    end ->
    let '(lines', current_line') := wrap_loop max_w words lines current_line in
    match lines' with
    | [] => len (strip current_line') <= max_w
    | first :: _ => len first <= max_w
    end.
Proof.
  intros Hpos. induction words as [|w words IH]; intros lines current Hinv.
  - simpl. destruct lines as [|first lines]; [|done].
    destruct Hinv as [->|(s & -> & Hs)]; [done|].
    rewrite strip_space. pose proof (len_strip s). lia.
  - simpl. destruct (len (current +:+ w) <=? max_w) eqn:E.
    + apply IH. destruct lines as [|first lines]; [|done].
      right. apply Z.leb_le in E.
      destruct Hinv as [->|(s & -> & Hs)].
      * exists w. by rewrite sapp_nil_l in *.
      * exists (s +:+ " " +:+ w). rewrite !sapp_assoc. split; [done|].
        rewrite !len_app in *. change (len " ") with 1 in *. lia.
    + apply IH. destruct lines as [|first lines]; [|done]. simpl.
      destruct Hinv as [->|(s & -> & Hs)]; [done|].
      rewrite strip_space. pose proof (len_strip s). lia.
Qed.

(** X4: for [max_w >= 0] the first line of [wrap_text] is never longer
    than [max_w], whatever the tokens are. *)
Lemma wrap_lines_first_width (text : string) (max_w : Z) (first : string) :
  0 <= max_w ->
  head (wrap_lines text max_w) = Some first ->
  len first <= max_w.
Proof.
  intros Hpos. unfold wrap_lines.
  pose proof (wrap_loop_first_line max_w (split text) Hpos [] "") as H.
  destruct (wrap_loop max_w (split text) [] "") as [lines current].
  specialize (H (or_introl eq_refl)).
  destruct lines as [|l lines]; simpl; intros [= <-]; done.
Qed.

(** C2, at the input [wrap_text("aaaaa bbb cc", 5)].  The claim: a token
    goes on the current line exactly when the line with a separating space
    and the token is at most [max_w] long, so that no line is longer than
    [max_w] when no token is.  The code tests [len(current_line + word)],
    without the space: on the first line the leading space of
    [current_line] makes up for it, after a flush nothing does.  Here the
    three tokens are at most 5 long and the second line is 6 long. *)
Theorem wrap_text_line_exceeds_width :
  split "aaaaa bbb cc" = ["aaaaa"; "bbb"; "cc"]
  /\ Forall (fun w => len w <= 5) (split "aaaaa bbb cc")
  /\ wrap_lines "aaaaa bbb cc" 5 = ["aaaaa"; "bbb cc"]
  /\ len "bbb cc" = 6
  /\ wrap_text "aaaaa bbb cc" 5 = "aaaaa" +:+ LF +:+ "bbb cc".
Proof.
  split; [reflexivity|]. split; [|by vm_compute].
  repeat constructor; by vm_compute.
Qed.

(** C8, as stated, fails: a text of length 4 without a line feed, wrapped
    at 10, comes back with its two spaces collapsed into one. *)
Lemma wrap_text_changes_short_text :
  has_char NEWLINE "a  b" = false
  /\ len "a  b" <= 10
  /\ wrap_text "a  b" 10 = "a b"
  /\ wrap_text "a  b" 10 <> "a  b".
Proof. by vm_compute. Qed.

(** C8, amended: [wrap_text(text, N) == text] for every text made of
    tokens separated by single spaces (no other whitespace, none leading
    or trailing) with [len(text) <= N]. *)
Theorem wrap_text_single_spaced (words : list string) (max_w : Z) :
  Forall token words ->
  len (join " " words) <= max_w ->
  wrap_text (join " " words) max_w = join " " words.
Proof.
  intros Htok Hlen. unfold wrap_text, wrap_lines.
  rewrite split_join by done.
  change "" with (first_line []) at 1.
  rewrite wrap_loop_fits by done. simpl.
  by rewrite strip_first_line.
Qed.

Lemma wrap_text_single_spaced_witness :
  Forall token ["hello"; "world"]
  /\ len (join " " ["hello"; "world"]) <= 20
  /\ wrap_text "hello world" 20 = "hello world".
Proof.
  assert (Forall token ["hello"; "world"]) as Htok
    by (repeat constructor; discriminate).
  assert (len (join " " ["hello"; "world"]) <= 20) as Hlen
    by (vm_compute; discriminate).
  split; [exact Htok|]. split; [exact Hlen|].
  exact (wrap_text_single_spaced ["hello"; "world"] 20 Htok Hlen).
Defined.

(** [isspace] holds of the twelve characters of [WHITESPACE] and of no
    other. *)
Lemma isspace_whitespace (c : ascii) :
  isspace c = existsb (Ascii.eqb c) WHITESPACE.
Proof. by destruct c as [[] [] [] [] [] [] [] []]. Qed.

Lemma only_all_space (s : string) : only WHITESPACE s = all_space s.
Proof.
  induction s as [|c s IH]; [reflexivity|].
  cbn [only all_space]. by rewrite IH, isspace_whitespace.
Qed.

Lemma none_of_no_space (s : string) : none_of WHITESPACE s = no_space s.
Proof.
  induction s as [|c s IH]; [reflexivity|].
  cbn [none_of no_space]. by rewrite IH, isspace_whitespace.
Qed.

(** [split] skips a run of whitespace before a word. *)
Lemma split_from_run (run rest : string) :
  all_space run = true ->
  split_from "" (run +:+ rest) = split_from "" rest.
Proof.
  induction run as [|c run IH]; [done|]. cbn [all_space].
  intros [Hc Hr]%andb_true_iff. rewrite sapp_cons. simpl. rewrite Hc.
  by apply IH.
Qed.

(** A word and the run after it: [split] yields the word and goes on
    behind the run, however long the run is. *)
Lemma split_word_run (word run rest : string) :
  token word -> all_space run = true -> run <> "" \/ rest = "" ->
  split (word +:+ run +:+ rest) = word :: split rest.
Proof.
  intros [Hne Hw] Hrun Hor. unfold split. rewrite split_from_token by done.
  rewrite sapp_nil_l. destruct run as [|c run].
  - destruct Hor as [?| ->]; [done|]. simpl. by rewrite eqb_nonempty.
  - cbn [all_space] in Hrun. apply andb_true_iff in Hrun as [Hc Hr].
    rewrite sapp_cons. simpl. rewrite Hc, eqb_nonempty by done.
    by rewrite split_from_run.
Qed.

Lemma split_pieces (pieces : list (string * string)) :
  Forall (fun piece => token (fst piece) /\ all_space (snd piece) = true)
    pieces ->
  runs_between pieces ->
  split (pieces_text pieces) = map fst pieces.
Proof.
  induction 1 as [|[word run] pieces [Hw Hr] _ IH]; [reflexivity|].
  cbn [runs_between pieces_text map fst snd] in *. intros [Hrun Hrest].
  rewrite split_word_run; [by rewrite IH|done|done|].
  destruct pieces; [by right | by left].
Qed.

(** The words of a text are what [split] makes of it, whatever the runs
    between them are. *)
Lemma split_spaced (lead : string) (pieces : list (string * string)) :
  well_spaced lead pieces ->
  split (spaced lead pieces) = map fst pieces.
Proof.
  intros (Hlead & Hpieces & Hruns).
  unfold spaced, split. rewrite split_from_run by (by rewrite <- only_all_space).
  apply split_pieces; [|done].
  eapply Forall_impl; [exact Hpieces|].
  intros [word run] (Hne & Hw & Hr). simpl in *.
  rewrite none_of_no_space in Hw. rewrite only_all_space in Hr.
  by repeat split.
Qed.

(** Every text is a leading run and pieces. *)
Lemma every_text_spaced (text : string) :
  exists (lead : string) (pieces : list (string * string)),
    well_spaced lead pieces /\ text = spaced lead pieces.
Proof.
  unfold well_spaced.
  induction text as [|c text (lead & pieces & (Hlead & Hpieces & Hruns) & ->)].
  { exists "", []. by repeat split. }
  destruct (isspace c) eqn:Hc.
  { exists (String c lead), pieces. split; [|reflexivity].
    split; [|done]. cbn [only]. by rewrite <- isspace_whitespace, Hc, Hlead. }
  assert (none_of WHITESPACE (String c "") = true) as Hc'.
  { cbn [none_of]. by rewrite <- isspace_whitespace, Hc. }
  destruct lead as [|d lead].
  - destruct pieces as [|[word run] more].
    + exists "", [(String c "", "")]. split; [|reflexivity].
      split; [done|]. split; [|done]. constructor; [by repeat split|].
      constructor.
    + exists "", ((String c word, run) :: more). split; [|reflexivity].
      apply Forall_cons in Hpieces as [(Hne & Hw & Hr) Hmore].
      split; [done|]. split; [|done]. constructor; [|done]. simpl in *.
      split; [done|]. split; [|done].
      cbn [none_of] in *. by rewrite Hw, andb_true_r in *.
  - exists "", ((String c "", String d lead) :: pieces).
    split; [|by unfold spaced; rewrite !sapp_cons, !sapp_nil_l].
    split; [done|]. split; [by constructor|].
    cbn [runs_between]. split; [|done]. by destruct pieces.
Qed.

(** C9: every text is a leading run of whitespace followed by words, each
    with the run of whitespace after it, where the whitespace characters
    are the tab, the line feed, the space and the nine others of
    [WHITESPACE], the words are not empty and hold none of them, and only
    the last run can be empty.  Whatever the runs are, [wrap_text] keeps
    the words only: the result is the words in order, cut into lines,
    joined by one space inside a line and by one line feed between lines,
    the same as for the words separated by single spaces.  No line but
    the first can be empty (the first is when there is no word or when
    the first word is longer than [max_w]). *)
Theorem wrap_text_collapses_whitespace (text : string) (max_w : Z) :
  (exists (lead : string) (pieces : list (string * string)),
     well_spaced lead pieces /\ text = spaced lead pieces)
  /\ forall (lead : string) (pieces : list (string * string)),
       well_spaced lead pieces ->
       text = spaced lead pieces ->
       let words := map fst pieces in
       (exists groups : list (list string),
          concat groups = words
          /\ groups <> []
          /\ Forall (fun g => g <> []) (tail groups)
          /\ (head groups = Some [] ->
              match words with [] => True | w :: _ => max_w < len w end)
          /\ wrap_text text max_w = join LF (map (join " ") groups))
       /\ wrap_text text max_w = wrap_text (join " " words) max_w.
Proof.
  split; [apply every_text_spaced|].
  intros lead pieces Hwell -> words.
  pose proof (split_spaced lead pieces Hwell) as Hsplit.
  split.
  - destruct (wrap_lines_groups (spaced lead pieces) max_w)
      as (groups & E & Hc & Hne & Htl & Hhd).
    exists groups. rewrite Hsplit in Hc, Hhd. unfold wrap_text.
    by rewrite E.
  - subst words. unfold wrap_text, wrap_lines. rewrite Hsplit.
    rewrite split_join; [done|]. rewrite <- Hsplit. apply split_tokens.
Qed.

Lemma wrap_text_collapses_whitespace_witness :
  well_spaced "  "
    [ ("one", String "009" (String "009" "")); ("two", LF +:+ LF);
      ("three", "   "); ("four", " ") ]
  /\ "  one" +:+ String "009" (String "009" "two") +:+ LF +:+ LF
     +:+ "three   four "
     = spaced "  "
         [ ("one", String "009" (String "009" "")); ("two", LF +:+ LF);
           ("three", "   "); ("four", " ") ]
  /\ wrap_text
       ("  one" +:+ String "009" (String "009" "two") +:+ LF +:+ LF
        +:+ "three   four ") 8
     = wrap_text "one two three four" 8
  /\ wrap_text
       ("  one" +:+ String "009" (String "009" "two") +:+ LF +:+ LF
        +:+ "three   four ") 8
     = "one two" +:+ LF +:+ "three" +:+ LF +:+ "four".
Proof.
  assert (well_spaced "  "
            [ ("one", String "009" (String "009" "")); ("two", LF +:+ LF);
              ("three", "   "); ("four", " ") ]) as Hwell.
  { split; [reflexivity|]. split.
    - repeat (constructor; [by repeat split|]). constructor.
    - by repeat split. }
  split; [exact Hwell|]. split; [reflexivity|].
  pose proof (proj2 (proj2 (wrap_text_collapses_whitespace
                              ("  one" +:+ String "009" (String "009" "two")
                               +:+ LF +:+ LF +:+ "three   four ") 8)
                       _ _ Hwell eq_refl)) as E.
  split; [exact E|]. rewrite E. reflexivity.
Defined.

(** ** More on the text wrapper *)


Lemma split_token_space (w rest : string) (c : ascii) :
  token w -> isspace c = true ->
  split (w +:+ String c rest) = w :: split rest.
Proof.
  intros [Hne Hw] Hc. unfold split. rewrite split_from_token by done.
  rewrite sapp_nil_l. simpl. by rewrite Hc, eqb_nonempty.
Qed.

Lemma split_line_then (g : list string) (rest : string) :
  Forall token g ->
  split (join " " g +:+ LF +:+ rest) = g ++ split rest.
Proof.
  induction 1 as [|w g Hw Hg IH]; [reflexivity|].
  destruct g as [|v g].
  - simpl. by apply split_token_space.
  - rewrite join_cons by done. rewrite !sapp_assoc.
    change (" " +:+ join " " (v :: g) +:+ LF +:+ rest)
      with (String " " (join " " (v :: g) +:+ LF +:+ rest)).
    rewrite split_token_space by done. by rewrite IH.
Qed.

Lemma split_lines (groups : list (list string)) :
  Forall (Forall token) groups ->
  split (join LF (map (join " ") groups)) = concat groups.
Proof.
  induction 1 as [|g groups Hg Hgs IH]; [reflexivity|].
  destruct groups as [|g' groups].
  - simpl. rewrite app_nil_r. by apply split_join.
  - change (map (join " ") (g :: g' :: groups))
      with (join " " g :: map (join " ") (g' :: groups)).
    rewrite join_cons by done. rewrite split_line_then by done.
    by rewrite IH.
Qed.

Lemma Forall_concat_inv {A} (P : A -> Prop) (ls : list (list A)) :
  Forall P (concat ls) -> Forall (Forall P) ls.
Proof.
  induction ls as [|l ls IH]; [constructor|]. simpl.
  intros [? ?]%Forall_app. constructor; auto.
Qed.

Lemma wrap_lines_token_groups (text : string) (max_w : Z) :
  exists groups : list (list string),
    wrap_lines text max_w = map (join " ") groups
    /\ concat groups = split text
    /\ Forall (Forall token) groups.
Proof.
  destruct (wrap_lines_groups text max_w) as (groups & E & Hc & _).
  exists groups. split; [done|]. split; [done|].
  apply Forall_concat_inv. rewrite Hc. apply split_tokens.
Qed.

(** X1: the wrapped text has the tokens of the text, all of them, whole
    and in order: splitting the result gives what splitting the text
    gives. *)
Theorem wrap_text_keeps_tokens (text : string) (max_w : Z) :
  split (wrap_text text max_w) = split text.
Proof.
  destruct (wrap_lines_token_groups text max_w) as (groups & E & Hc & Htok).
  unfold wrap_text. rewrite E, split_lines by done. exact Hc.
Qed.

(** X2: wrapping is idempotent: wrapping a wrapped text at the same width
    changes nothing. *)
Theorem wrap_text_idempotent (text : string) (max_w : Z) :
  wrap_text (wrap_text text max_w) max_w = wrap_text text max_w.
Proof.
  destruct (wrap_lines_token_groups text max_w) as (groups & E & Hc & Htok).
  unfold wrap_text at 1. unfold wrap_lines.
  assert (split (wrap_text text max_w) = split text) as ->.
  { unfold wrap_text. rewrite E, split_lines by done. exact Hc. }
  reflexivity.
Qed.

Lemma has_char_app (c : ascii) (s t : string) :
  has_char c (s +:+ t) = has_char c s || has_char c t.
Proof.
  induction s as [|d s IH]; [reflexivity|].
  rewrite sapp_cons. cbn [has_char]. by rewrite IH, orb_assoc.
Qed.

Lemma no_space_no_newline (s : string) :
  no_space s = true -> has_char NEWLINE s = false.
Proof.
  induction s as [|c s IH]; [reflexivity|]. cbn [has_char no_space].
  intros [Hc Hs]%andb_true_iff. rewrite IH by done.
  destruct (Ascii.eqb NEWLINE c) eqn:E; [|reflexivity].
  apply Ascii.eqb_eq in E. subst c. done.
Qed.

Lemma join_no_newline (g : list string) :
  Forall token g -> has_char NEWLINE (join " " g) = false.
Proof.
  induction 1 as [|w g [_ Hw] Hg IH]; [reflexivity|].
  destruct g as [|v g]; [by apply no_space_no_newline|].
  rewrite join_cons by done. rewrite !has_char_app, IH.
  by rewrite no_space_no_newline.
Qed.

(** X3: no line of the result has whitespace at either end, and none
    holds a line feed. *)
Theorem wrap_lines_trimmed (text : string) (max_w : Z) :
  Forall (fun line => strip line = line /\ has_char NEWLINE line = false)
    (wrap_lines text max_w).
Proof.
  destruct (wrap_lines_token_groups text max_w) as (groups & E & _ & Htok).
  rewrite E. apply Forall_map. eapply Forall_impl; [exact Htok|].
  intros g Hg. simpl. split; [by apply strip_join | by apply join_no_newline].
Qed.

Lemma split_all_space (text : string) :
  all_space text = true -> split text = [].
Proof.
  unfold split. induction text as [|c text IH]; [reflexivity|]. simpl.
  intros [Hc Hs]%andb_true_iff. rewrite Hc. simpl. by apply IH.
Qed.

(** X6: a text of whitespace only (the empty text too) is wrapped to one
    empty line, the empty string, whatever [max_w] is. *)
Theorem wrap_text_blank (text : string) (max_w : Z) :
  all_space text = true ->
  wrap_lines text max_w = [""] /\ wrap_text text max_w = "".
Proof.
  intros H. unfold wrap_text, wrap_lines. by rewrite split_all_space.
Qed.

(** X7: when the tokens joined by single spaces fit into [max_w], the
    result is that one line. *)
Theorem wrap_text_one_line (text : string) (max_w : Z) :
  len (join " " (split text)) <= max_w ->
  wrap_text text max_w = join " " (split text).
Proof.
  intros Hlen. unfold wrap_text, wrap_lines.
  change "" with (first_line []) at 1.
  rewrite wrap_loop_fits by done. simpl.
  rewrite strip_first_line by apply split_tokens. reflexivity.
Qed.

Lemma len_in_join (g : list string) (w : string) :
  In w g -> len w <= len (join " " g).
Proof.
  induction g as [|v g IH]; [done|]. intros [->|Hin].
  - pose proof (len_join_prefix " " [w] g) as H. simpl in H. exact H.
  - destruct g as [|v' g]; [done|]. rewrite join_cons by done.
    rewrite !len_app. specialize (IH Hin).
    pose proof (len_nonneg v). pose proof (len_nonneg " "). lia.
Qed.

Lemma len_pad_snoc (padded : bool) (g : list string) (w : string) :
  g <> [] ->
  len (join " " (g ++ [w])) - 1 <= len (pad padded g +:+ w)
  /\ len (pad padded g +:+ w) <= len (join " " (g ++ [w])).
Proof.
  intros Hg. rewrite join_snoc by done. unfold pad.
  destruct padded; rewrite !len_app;
    change (len " ") with 1; change (len "") with 0; lia.
Qed.

Lemma alone_singleton (max_w : Z) (w : string) : alone max_w [w].
Proof. intros x [->|[]] _. reflexivity. Qed.

Lemma alone_fit (max_w : Z) (padded : bool) (g : list string) (w : string) :
  len (pad padded g +:+ w) <= max_w -> alone max_w (g ++ [w]).
Proof.
  intros H x Hin Hx. exfalso. apply in_app_or in Hin as [Hin|[->|[]]].
  - pose proof (len_in_join g x Hin). unfold pad in H.
    rewrite !len_app in H. pose proof (len_nonneg w).
    pose proof (len_nonneg (if padded then " " else "")). lia.
  - rewrite len_app in H. pose proof (len_nonneg (pad padded g)). lia.
Qed.

(** The groups the loop cuts, with what makes the cut greedy. *)
Lemma wrap_loop_layout (max_w : Z) (words : list string) :
  forall (lines : list string) (padded : bool) (g : list string),
    g <> [] -> Forall token (g ++ words) -> alone max_w g ->
    exists (gs : list (list string)) (g' : list string) (padded' : bool),
      wrap_loop max_w words lines (pad padded g)
      = (lines ++ map (join " ") gs, pad padded' g')
      /\ concat gs ++ g' = g ++ words
      /\ g' <> []
      /\ Forall (alone max_w) (gs ++ [g'])
      /\ breaks_needed max_w (gs ++ [g'])
      /\ exists more, head (gs ++ [g']) = Some (g ++ more).
Proof.
  induction words as [|w words IH]; intros lines padded g Hg Htok Halone.
  - exists [], g, padded. simpl. rewrite !app_nil_r.
    repeat split; try done; [by repeat constructor|].
    exists []. by rewrite app_nil_r.
  - simpl. destruct (len (pad padded g +:+ w) <=? max_w) eqn:Htest.
    + rewrite pad_snoc by done. apply Z.leb_le in Htest.
      destruct (IH lines padded (g ++ [w]))
        as (gs & g' & p' & E & Hc & Hg' & Hal & Hbr & more & Hhd).
      { by destruct g. }
      { by rewrite <- List.app_assoc. }
      { by apply (alone_fit max_w padded). }
      exists gs, g', p'. rewrite E, Hc, <- List.app_assoc.
      repeat split; try done. exists (w :: more).
      by rewrite Hhd, <- List.app_assoc.
    + apply Z.leb_gt in Htest.
      assert (Forall token g) as Hgt by (by apply Forall_app in Htok as [? _]).
      rewrite strip_pad by done.
      destruct (IH (lines ++ [join " " g]) false [w])
        as (gs & g' & p' & E & Hc & Hg' & Hal & Hbr & more & Hhd);
        [done| |apply alone_singleton|].
      { by apply Forall_app in Htok as [_ ?]. }
      exists (g :: gs), g', p'. change (pad false [w]) with w in E.
      rewrite E. simpl. rewrite <- !List.app_assoc. simpl.
      split; [done|]. split; [by rewrite Hc|]. split; [done|].
      split; [by constructor|]. split.
      * split; [|done]. destruct (gs ++ [g']) as [|x xs]; [done|].
        simpl in Hhd. injection Hhd as ->. simpl.
        pose proof (len_pad_snoc padded g w Hg). lia.
      * exists []. by rewrite app_nil_r.
Qed.

Lemma wrap_lines_layout (text : string) (max_w : Z) :
  exists groups : list (list string),
    wrap_lines text max_w = map (join " ") groups
    /\ concat groups = split text
    /\ Forall (alone max_w) groups
    /\ breaks_needed max_w groups.
Proof.
  unfold wrap_lines. pose proof (split_tokens text) as Htok.
  destruct (split text) as [|w words] eqn:Hsplit.
  - exists [[]]. simpl. split; [done|]. split; [done|]. split; [|done].
    constructor; [by intros ? []|constructor].
  - simpl. rewrite !sapp_nil_l.
    destruct (len w <=? max_w) eqn:Hlen.
    + change (wrap_loop max_w words [] (" " +:+ w))
        with (wrap_loop max_w words [] (pad true [w])).
      destruct (wrap_loop_layout max_w words [] true [w])
        as (gs & g' & p' & E & Hc & Hg' & Hal & Hbr & _);
        [done|done|apply alone_singleton|].
      exists (gs ++ [g']). rewrite E. simpl.
      assert (Forall token g') as Hgt.
      { assert (Forall token (concat gs ++ g')) as H by (by rewrite Hc).
        by apply Forall_app in H as [_ ?]. }
      rewrite strip_pad by done. rewrite map_app. simpl.
      split; [done|].
      split; [by rewrite concat_app; simpl; rewrite app_nil_r|]. done.
    + change (wrap_loop max_w words [strip ""] w)
        with (wrap_loop max_w words [""] (pad false [w])).
      destruct (wrap_loop_layout max_w words [""] false [w])
        as (gs & g' & p' & E & Hc & Hg' & Hal & Hbr & more & Hhd);
        [done|done|apply alone_singleton|].
      exists ([] :: gs ++ [g']). rewrite E. simpl.
      assert (Forall token g') as Hgt.
      { assert (Forall token (concat gs ++ g')) as H by (by rewrite Hc).
        by apply Forall_app in H as [_ ?]. }
      rewrite strip_pad by done. rewrite map_app. simpl.
      split; [done|].
      split; [by rewrite concat_app; simpl; rewrite app_nil_r|].
      split; [constructor; [by intros ? []|done]|].
      split; [|done]. destruct (gs ++ [g']) as [|x xs]; [done|].
      simpl in Hhd. injection Hhd as ->. simpl. apply Z.leb_gt in Hlen. lia.
Qed.

(** X8: a token longer than [max_w] is never cut and never shares its
    line: the group of words of its line is that token alone. *)
Theorem wrap_text_long_token_alone (text : string) (max_w : Z) :
  exists groups : list (list string),
    wrap_lines text max_w = map (join " ") groups
    /\ concat groups = split text
    /\ forall (g : list string) (w : string),
         In g groups -> In w g -> max_w < len w -> g = [w].
Proof.
  destruct (wrap_lines_layout text max_w) as (groups & E & Hc & Hal & _).
  exists groups. split; [done|]. split; [done|].
  intros g w Hg. rewrite Forall_forall in Hal. apply Hal.
  by apply list_elem_of_In.
Qed.

(** X9: the wrapper breaks a line only when it has to: for every two
    lines that follow each other, the first with the first word of the
    second added after a space is longer than [max_w]. *)
Theorem wrap_text_breaks_needed (text : string) (max_w : Z) :
  exists groups : list (list string),
    wrap_lines text max_w = map (join " ") groups
    /\ concat groups = split text
    /\ breaks_needed max_w groups.
Proof.
  destruct (wrap_lines_layout text max_w) as (groups & E & Hc & _ & Hbr).
  by exists groups.
Qed.

(** ** The pipeline *)

Section Pipeline.
Context {F : Type} {host : Host F}.
Implicit Types (preferences : gmap string string) (self : SettingsHandler F).

(** For a non-blank [search_term], [query] hands one request to
    [requests.post] and returns what it returns. *)
Lemma query_sends self (search_term : string) :
  search_term <> "" ->
  query search_term (system_prompt self) (api_key self) (temperature self)
    (max_tokens self) (top_p self) (frequency_penalty self)
    (presence_penalty self) (model self)
  = {| sent := [request_of self search_term];
       outcome := response <- requests_post (request_of self search_term) ;;
                  Ok (Http response) |}.
Proof. intros Hne. unfold query. by rewrite eqb_nonempty. Qed.

Lemma query_and_render_sent self (search_term : string) :
  search_term <> "" ->
  sent (query_and_render self search_term) = [request_of self search_term].
Proof.
  intros Hne. unfold query_and_render. rewrite query_sends by done. simpl.
  by destruct (requests_post _).
Qed.

(** A failed resolution of the preferences is caught by both handlers:
    one item, nothing sent. *)
Lemma resolution_error_recovered preferences (err : exn) :
  parse_prefs preferences = Raise err ->
  forall (data : string) (argument : option string),
    ItemEnterEventListener.on_event data preferences
    = {| sent := [];
         outcome := Ok (error_item "Failed to parse preferences: " err) |}
    /\ KeywordQueryEventListener.on_event argument preferences
       = {| sent := [];
            outcome := Ok (error_item "Failed to parse preferences: " err) |}.
Proof.
  intros E data argument.
  unfold ItemEnterEventListener.on_event, KeywordQueryEventListener.on_event.
  by rewrite E.
Qed.

(** An exception of [requests.post] is caught by both handlers: one
    item. *)
Lemma transport_error_recovered self (search_term : string) (err : exn) :
  search_term <> "" ->
  requests_post (request_of self search_term) = Raise err ->
  query_and_render self search_term
  = {| sent := [request_of self search_term];
       outcome := Ok (error_item "Request failed: " err) |}.
Proof.
  intros Hne E. unfold query_and_render. rewrite query_sends by done.
  simpl. by rewrite E.
Qed.

(** An exception of [create_items] is caught by neither: the call stands
    after the [try] block, and the exception leaves the handler. *)
Lemma service_error_escapes self (search_term : string)
    (response : Response F) (err : exn) :
  search_term <> "" ->
  requests_post (request_of self search_term) = Ok response ->
  create_items (Http response) (line_wrap self) = Raise err ->
  outcome (query_and_render self search_term) = Raise err.
Proof.
  intros Hne E Hitems. unfold query_and_render. rewrite query_sends by done.
  simpl. rewrite E. simpl. by rewrite Hitems.
Qed.

(** The same happens to the render action [query] returns for a blank
    prompt: the handlers pass it to [create_items], which finds neither
    [json()] nor a subscript on it.  Nothing is sent. *)
Lemma blank_prompt_in_handlers self :
  query_and_render self ""
  = {| sent := [];
       outcome :=
         Raise (Exception
                  (py_str
                     (Render
                        {| result_list :=
                             [ {| icon := EXTENSION_ICON;
                                  name := "Type in a prompt...";
                                  description := None;
                                  on_enter := DoNothingAction |} ] |})
                   +:+ default_errMsg)) |}.
Proof. reflexivity. Qed.

(** C4: for a non-empty [search_term], [query] sends one request; the
    [messages] of its body are exactly two turns, the system turn with
    [system_prompt] and the user turn with [search_term], both as they
    were given. *)
Theorem query_builds_two_turns (search_term system_prompt api_key : string)
    (temperature : F) (max_tokens : Z)
    (top_p frequency_penalty presence_penalty : F) (model : string) :
  search_term <> "" ->
  exists body : json F,
    sent (query search_term system_prompt api_key temperature max_tokens
            top_p frequency_penalty presence_penalty model)
    = [ {| url := ENDPOINT;
           headers := [ ("content-type", "application/json");
                        ("Authorization", "Bearer " +:+ api_key) ];
           data := json_dumps body;
           timeout := 10 |} ]
    /\ getitem body "messages"
       = Ok (JArray
               [ JObject [("role", JString "system");
                          ("content", JString system_prompt)];
                 JObject [("role", JString "user");
                          ("content", JString search_term)] ]).
Proof.
  intros Hne. eexists. unfold query. rewrite eqb_nonempty by done.
  split; reflexivity.
Qed.

(** For the empty [search_term], whatever the configuration, [query]
    returns the render action of one item, the prompt placeholder with
    the do-nothing action, and hands no request to [requests.post]. *)
Lemma query_blank_prompt (system_prompt api_key : string)
    (temperature : F) (max_tokens : Z)
    (top_p frequency_penalty presence_penalty : F) (model : string) :
  query "" system_prompt api_key temperature max_tokens top_p
    frequency_penalty presence_penalty model
  = {| sent := [];
       outcome :=
         Ok (Render
               {| result_list :=
                    [ {| icon := EXTENSION_ICON;
                         name := "Type in a prompt...";
                         description := None;
                         on_enter := DoNothingAction |} ] |}) |}.
Proof. reflexivity. Qed.

Lemma for_each_choices (line_wrap : Z) (choices : list (json F))
    (contents : list string) :
  Forall2 (fun choice text => content_of choice = Ok (JString text))
    choices contents ->
  for_each (choice_item line_wrap) choices
  = Ok (map (candidate_item line_wrap) contents).
Proof.
  induction 1 as [|choice text choices contents Hc _ IH]; [reflexivity|].
  simpl. rewrite IH. unfold choice_item, content_of in *.
  destruct (getitem choice "message") as [m|]; [|done]. simpl in *.
  by rewrite Hc.
Qed.

(** C6: for a response whose body decodes to a [dict] with a list under
    ["choices"], each choice holding a [str] under [message.content],
    [create_items] returns one item per choice, in the order of the list:
    titled ["Assistant"], described by the wrapped content, with the
    action that copies the wrapped content. *)
Theorem create_items_candidates (response : Response F) (body : json F)
    (choices : list (json F)) (contents : list string) (line_wrap : Z) :
  decoded response = Some body ->
  getitem body "choices" = Ok (JArray choices) ->
  Forall2 (fun choice text => content_of choice = Ok (JString text))
    choices contents ->
  create_items (Http response) line_wrap
  = Ok (map (fun text =>
               {| icon := EXTENSION_ICON;
                  name := "Assistant";
                  description := Some (wrap_text text line_wrap);
                  on_enter :=
                    CopyToClipboardAction (wrap_text text line_wrap) |})
          contents)
  /\ length contents = length choices.
Proof.
  intros Hbody Hchoices Hcontents. split.
  - unfold create_items, decode_choices, call_json.
    rewrite Hbody, Hchoices. simpl. by apply for_each_choices.
  - symmetry. by eapply Forall2_length.
Qed.

Lemma decode_choices_fails (response : Response F) :
  no_choices response ->
  exists err, decode_choices (Http response) = (rebound response, Raise err).
Proof.
  unfold no_choices, decode_choices, rebound, call_json.
  destruct (decoded response) as [body|]; [|by eexists].
  intros H. destruct (getitem body "choices") as [x|e]; [by destruct (H x)|].
  by eexists.
Qed.

(** C3, amended: when the body cannot be decoded, or the decoded body is
    no [dict] with a ["choices"] key, [create_items] returns no list, it
    raises.  With [x] the decoded body (the response object when decoding
    failed): when [x['error']['message']] is a [str], the exception is
    [Exception(str(x) + message)]; when that extraction raises, it is
    [Exception(str(x) + "Unknown error, please check logs for more
    info")]. *)
Theorem create_items_failure (response : Response F) (line_wrap : Z) :
  no_choices response ->
  (exists err, create_items (Http response) line_wrap = Raise err)
  /\ (forall message : string,
        error_message (rebound response) = Ok (JString message) ->
        create_items (Http response) line_wrap
        = Raise (Exception (py_str (rebound response) +:+ message)))
  /\ (forall err,
        error_message (rebound response) = Raise err ->
        create_items (Http response) line_wrap
        = Raise (Exception
                   (py_str (rebound response)
                    +:+ "Unknown error, please check logs for more info"))).
Proof.
  intros H. destruct (decode_choices_fails response H) as [e E].
  unfold create_items. rewrite E. split; [|split].
  - destruct (error_message (rebound response)) as [[]|];
      simpl; by eexists.
  - by intros message ->.
  - by intros err ->.
Qed.

(** When the extracted message is no [str], the concatenation itself
    raises. *)
Lemma create_items_failure_not_str (response : Response F) (line_wrap : Z)
    (message : json F) :
  no_choices response ->
  error_message (rebound response) = Ok message ->
  (forall text, message <> JString text) ->
  exists msg, create_items (Http response) line_wrap = Raise (TypeError msg).
Proof.
  intros H E Hnot. destruct (decode_choices_fails response H) as [e E'].
  unfold create_items. rewrite E', E.
  destruct message; simpl; try by eexists. by destruct (Hnot s).
Qed.

(** [api_key] is looked up before [max_tokens]: when it is there, the
    exception of [int] is the one [parse_prefs] raises. *)
Lemma parse_prefs_max_tokens preferences (value : string) (err : exn) :
  preferences !! "max_tokens" = Some value ->
  py_int value = Raise err ->
  parse_prefs preferences
  = Raise (match preferences !! "api_key" with
           | Some _ => err
           | None => KeyError "api_key"
           end).
Proof.
  intros Hv Hint. unfold parse_prefs, preference.
  destruct (preferences !! "api_key"); [|reflexivity].
  simpl. rewrite Hv. simpl. by rewrite Hint.
Qed.

(** C7, amended: when [int] raises on the value of [max_tokens],
    [parse_prefs] raises: with an [api_key] in the preferences, exactly
    the exception of [int]; without one, the [KeyError] of [api_key],
    which is looked up first.  Both handlers return one item, titled
    ["Failed to parse preferences: "] followed by the text of that
    exception, whose action copies that text; and nothing is sent. *)
Theorem max_tokens_failure preferences (value : string) (err : exn) :
  preferences !! "max_tokens" = Some value ->
  py_int value = Raise err ->
  let raised :=
    match preferences !! "api_key" with
    | Some _ => err
    | None => KeyError "api_key"
    end
  in
  parse_prefs preferences = Raise raised
  /\ forall (data : string) (argument : option string),
       let shown :=
         {| sent := [];
            outcome :=
              Ok {| result_list :=
                      [ {| icon := EXTENSION_ICON;
                           name := "Failed to parse preferences: "
                                   +:+ str_exn raised;
                           description := None;
                           on_enter :=
                             CopyToClipboardAction (str_exn raised) |} ] |} |}
       in
       ItemEnterEventListener.on_event data preferences = shown
       /\ KeywordQueryEventListener.on_event argument preferences = shown.
Proof.
  intros Hv Hint raised.
  pose proof (parse_prefs_max_tokens preferences value err Hv Hint) as E.
  split; [exact E|].
  intros data argument. by apply resolution_error_recovered.
Qed.

(** C10: in the keyword handler the prompt is [str(argument)], which for
    the argument [None] is the four characters ["None"].  With resolved
    preferences that do not ask to wait, the handler sends one request
    whose user turn is ["None"]; with preferences that ask to wait, it
    returns the item whose action carries ["None"], and the Enter handler
    sends that request when it is given ["None"] back. *)
Theorem keyword_argument_none preferences self :
  parse_prefs preferences = Ok self ->
  let request (body : json F) :=
    {| url := ENDPOINT;
       headers := [ ("content-type", "application/json");
                    ("Authorization", "Bearer " +:+ api_key self) ];
       data := json_dumps body;
       timeout := 10 |} in
  KeywordQueryEventListener.str_argument None = "None"
  /\ (exists body : json F,
        getitem body "messages"
        = Ok (JArray
                [ JObject [("role", JString "system");
                           ("content", JString (system_prompt self))];
                  JObject [("role", JString "user");
                           ("content", JString "None")] ])
        /\ (wait_for_enter self = 0 ->
            sent (KeywordQueryEventListener.on_event None preferences)
            = [request body])
        /\ sent (ItemEnterEventListener.on_event "None" preferences)
           = [request body])
  /\ (wait_for_enter self <> 0 ->
      KeywordQueryEventListener.on_event None preferences
      = {| sent := [];
           outcome :=
             Ok {| result_list :=
                     [ {| icon := EXTENSION_ICON;
                          name := "Waiting until Enter is pressed: None";
                          description := None;
                          on_enter :=
                            ExtensionCustomAction "None" true |} ] |} |}).
Proof.
  intros E request. split; [reflexivity|]. split.
  - exists (request_body "None" (system_prompt self) (temperature self)
              (max_tokens self) (top_p self) (frequency_penalty self)
              (presence_penalty self) (model self)).
    split; [reflexivity|]. split.
    + intros Hwait. unfold KeywordQueryEventListener.on_event.
      rewrite E, Hwait. simpl. by rewrite query_and_render_sent.
    + unfold ItemEnterEventListener.on_event. rewrite E.
      by rewrite query_and_render_sent.
  - intros Hwait. unfold KeywordQueryEventListener.on_event. rewrite E.
    apply Z.eqb_neq in Hwait. by rewrite Hwait.
Qed.

End Pipeline.


(** ** More on the pipeline *)

Section PipelineExtras.
Context {F : Type} {host : Host F}.
Implicit Types (preferences : gmap string string) (self : SettingsHandler F).

Lemma bind_ok {A B : Type} (r : result A) (k : A -> result B) (b : B) :
  bind r k = Ok b <-> exists a, r = Ok a /\ k a = Ok b.
Proof.
  destruct r as [a|e]; simpl; split.
  - by exists a.
  - by intros (a' & [= ->] & ?).
  - done.
  - by intros (a' & ? & _).
Qed.

Lemma preference_ok preferences (key value : string) :
  preference preferences key = Ok value <-> preferences !! key = Some value.
Proof.
  unfold preference. destruct (preferences !! key); split; congruence.
Qed.

Lemma int_pref_bind preferences (key : string) (n : Z) :
  (s <- preference preferences key ;; py_int s) = Ok n
  <-> int_pref preferences key n.
Proof.
  rewrite bind_ok. unfold int_pref.
  split; intros (s & H & ?); exists s; (split; [by apply preference_ok|done]).
Qed.

Lemma float_pref_bind preferences (key : string) (x : F) :
  (s <- preference preferences key ;; py_float s) = Ok x
  <-> float_pref preferences key x.
Proof.
  rewrite bind_ok. unfold float_pref.
  split; intros (s & H & ?); exists s; (split; [by apply preference_ok|done]).
Qed.

Lemma parse_prefs_inv preferences self :
  parse_prefs preferences = Ok self ->
  preferences !! "api_key" = Some (api_key self)
  /\ int_pref preferences "max_tokens" (max_tokens self)
  /\ float_pref preferences "frequency_penalty" (frequency_penalty self)
  /\ float_pref preferences "presence_penalty" (presence_penalty self)
  /\ float_pref preferences "temperature" (temperature self)
  /\ float_pref preferences "top_p" (top_p self)
  /\ preferences !! "system_prompt" = Some (system_prompt self)
  /\ int_pref preferences "line_wrap" (line_wrap self)
  /\ preferences !! "model" = Some (model self)
  /\ int_pref preferences "wait_before_query" (wait_for_enter self).
Proof.
  unfold parse_prefs. intros H.
  apply bind_ok in H as (a1 & H1%preference_ok & H).
  apply bind_ok in H as (a2 & H2%int_pref_bind & H).
  apply bind_ok in H as (a3 & H3%float_pref_bind & H).
  apply bind_ok in H as (a4 & H4%float_pref_bind & H).
  apply bind_ok in H as (a5 & H5%float_pref_bind & H).
  apply bind_ok in H as (a6 & H6%float_pref_bind & H).
  apply bind_ok in H as (a7 & H7%preference_ok & H).
  apply bind_ok in H as (a8 & H8%int_pref_bind & H).
  apply bind_ok in H as (a9 & H9%preference_ok & H).
  apply bind_ok in H as (a10 & H10%int_pref_bind & H).
  injection H as <-. simpl. done.
Qed.

(** X10: [parse_prefs] succeeds exactly when each of the ten preferences
    is there and each numeric one is accepted by [int] or [float]; the
    settings are those values as parsed.  No key has a default and no
    number is clamped. *)
Theorem parse_prefs_resolves_iff preferences self :
  parse_prefs preferences = Ok self
  <-> preferences !! "api_key" = Some (api_key self)
      /\ int_pref preferences "max_tokens" (max_tokens self)
      /\ float_pref preferences "frequency_penalty" (frequency_penalty self)
      /\ float_pref preferences "presence_penalty" (presence_penalty self)
      /\ float_pref preferences "temperature" (temperature self)
      /\ float_pref preferences "top_p" (top_p self)
      /\ preferences !! "system_prompt" = Some (system_prompt self)
      /\ int_pref preferences "line_wrap" (line_wrap self)
      /\ preferences !! "model" = Some (model self)
      /\ int_pref preferences "wait_before_query" (wait_for_enter self).
Proof.
  split; [apply parse_prefs_inv|].
  intros (H1 & (s2 & L2 & H2) & (s3 & L3 & H3) & (s4 & L4 & H4)
          & (s5 & L5 & H5) & (s6 & L6 & H6) & H7 & (s8 & L8 & H8) & H9
          & (s10 & L10 & H10)).
  unfold parse_prefs, preference.
  rewrite H1, L2, L3, L4, L5, L6, H7, L8, H9, L10. simpl.
  rewrite H2, H3, H4, H5, H6, H8, H10. simpl. by destruct self.
Qed.

Lemma for_each_inv {A B : Type} (f : A -> result B) (xs : list A)
    (ys : list B) :
  for_each f xs = Ok ys -> Forall2 (fun x y => f x = Ok y) xs ys.
Proof.
  revert ys. induction xs as [|x xs IH]; intros ys; simpl.
  - intros [= <-]. constructor.
  - intros (y & Hy & H)%bind_ok. apply bind_ok in H as (ys' & Hys & [= <-]).
    constructor; auto.
Qed.

Lemma for_each_raise {A B : Type} (f : A -> result B)
    (good : list A) (bad : A) (rest : list A) (err : exn) :
  Forall (fun x => exists y, f x = Ok y) good ->
  f bad = Raise err ->
  for_each f (good ++ bad :: rest) = Raise err.
Proof.
  intros Hgood Hbad. induction Hgood as [|x good [y Hy] _ IH]; simpl.
  - by rewrite Hbad.
  - by rewrite Hy, IH.
Qed.

Lemma raise_failure_raises (response : object F) (errMsg : json F) :
  exists err, raise_failure response errMsg = Raise err.
Proof. destruct errMsg; by eexists. Qed.

Lemma choice_item_shape (line_wrap : Z) (choice : json F)
    (item : ExtensionResultItem) :
  choice_item line_wrap choice = Ok item ->
  exists text : string,
    content_of choice = Ok (JString text)
    /\ item = candidate_item line_wrap text.
Proof.
  unfold choice_item, content_of.
  intros (m & Hm & H)%bind_ok. apply bind_ok in H as (c & Hc & H).
  apply bind_ok in H as (message & Hw & [= <-]).
  destruct c; try discriminate. injection Hw as <-.
  exists s. rewrite Hm. simpl. by rewrite Hc.
Qed.

(** X11: whatever it is given, a list that [create_items] returns holds
    candidate items only: each is titled ["Assistant"], described by a
    wrapped text, and copies that same text. *)
Theorem create_items_only_candidates (response : object F) (line_wrap : Z)
    (items : list ExtensionResultItem) :
  create_items response line_wrap = Ok items ->
  Forall (fun item =>
            icon item = EXTENSION_ICON
            /\ name item = "Assistant"
            /\ exists text : string,
                 description item = Some (wrap_text text line_wrap)
                 /\ on_enter item
                    = CopyToClipboardAction (wrap_text text line_wrap))
    items.
Proof.
  unfold create_items. destruct (decode_choices response) as [target [cs|e]].
  - intros (l & _ & H)%bind_ok. apply for_each_inv in H.
    induction H as [|c item l items Hc _ IH]; constructor; [|done].
    apply choice_item_shape in Hc as (text & _ & ->). simpl. eauto.
  - destruct (raise_failure_raises target
                match error_message target with
                | Ok message => message
                | Raise _ => JString default_errMsg
                end) as [err ->]. done.
Qed.

(** X12: one malformed choice discards every candidate: when a choice
    has no [message.content], or a content that is no [str], after
    choices that are fine, [create_items] raises the exception of that
    choice and returns nothing. *)
Theorem create_items_first_failure (response : Response F) (body : json F)
    (good : list (json F)) (bad : json F) (rest : list (json F))
    (line_wrap : Z) (err : exn) :
  decoded response = Some body ->
  getitem body "choices" = Ok (JArray (good ++ bad :: rest)) ->
  Forall (fun choice =>
            exists text, content_of choice = Ok (JString text)) good ->
  (content_of bad = Raise err
   \/ exists v, content_of bad = Ok v
                /\ wrap_content v line_wrap = Raise err) ->
  create_items (Http response) line_wrap = Raise err.
Proof.
  intros Hbody Hchoices Hgood Hbad.
  unfold create_items, decode_choices, call_json.
  rewrite Hbody, Hchoices. simpl. apply for_each_raise.
  - eapply Forall_impl; [exact Hgood|]. intros c [text Hc].
    exists (candidate_item line_wrap text).
    unfold choice_item, content_of in *.
    destruct (getitem c "message") as [m|]; [|done]. simpl in *.
    by rewrite Hc.
  - unfold choice_item, content_of in *.
    destruct (getitem bad "message") as [m|e]; simpl in *.
    + destruct Hbad as [-> | (v & -> & Hw)]; [done|]. simpl. by rewrite Hw.
    + destruct Hbad as [[= ->] | (v & [=] & _)]. done.
Qed.

(** X13: when the body has a value under ["choices"] that is no list,
    [create_items] returns the empty list when that value is the empty
    [dict] or the empty [str], and raises a [TypeError] when it is
    anything else. *)
Theorem create_items_choices_not_list (response : Response F)
    (body choices : json F) (line_wrap : Z) :
  decoded response = Some body ->
  getitem body "choices" = Ok choices ->
  (forall items, choices <> JArray items) ->
  (choices = JObject [] \/ choices = JString "" ->
   create_items (Http response) line_wrap = Ok [])
  /\ (choices <> JObject [] -> choices <> JString "" ->
      exists msg,
        create_items (Http response) line_wrap = Raise (TypeError msg)).
Proof.
  intros Hbody Hchoices Hnot.
  unfold create_items, decode_choices, call_json.
  rewrite Hbody, Hchoices. simpl. split.
  - by intros [-> | ->].
  - intros Hdict Hstr.
    destruct choices as [| | | |s|items|members]; simpl; try by eexists.
    + destruct s as [|c s]; [done|]. simpl. by eexists.
    + by destruct (Hnot items).
    + destruct members as [|[k v] members]; [done|]. simpl. by eexists.
Qed.

(** X14: whatever makes [parse_prefs] raise, both handlers return one
    item, titled ["Failed to parse preferences: "] followed by the text
    of the exception, whose action copies that text; nothing is sent. *)
Theorem resolution_failure_shown preferences (err : exn) :
  parse_prefs preferences = Raise err ->
  forall (data : string) (argument : option string),
    let shown :=
      {| sent := [];
         outcome :=
           Ok {| result_list :=
                   [ {| icon := EXTENSION_ICON;
                        name := "Failed to parse preferences: "
                                +:+ str_exn err;
                        description := None;
                        on_enter := CopyToClipboardAction (str_exn err) |} ] |} |}
    in
    ItemEnterEventListener.on_event data preferences = shown
    /\ KeywordQueryEventListener.on_event argument preferences = shown.
Proof. intros E data argument. by apply resolution_error_recovered. Qed.

(** X15: when [requests.post] raises, the handler returns one item,
    titled ["Request failed: "] followed by the text of the exception,
    whose action copies that text; the request was handed over once and
    is not sent again. *)
Theorem transport_failure_shown preferences self (argument : option string)
    (err : exn) :
  parse_prefs preferences = Ok self ->
  KeywordQueryEventListener.str_argument argument <> "" ->
  requests_post
    (request_of self (KeywordQueryEventListener.str_argument argument))
  = Raise err ->
  let search_term := KeywordQueryEventListener.str_argument argument in
  let shown :=
    {| sent := [request_of self search_term];
       outcome :=
         Ok {| result_list :=
                 [ {| icon := EXTENSION_ICON;
                      name := "Request failed: " +:+ str_exn err;
                      description := None;
                      on_enter := CopyToClipboardAction (str_exn err) |} ] |} |}
  in
  ItemEnterEventListener.on_event search_term preferences = shown
  /\ (wait_for_enter self = 0 ->
      KeywordQueryEventListener.on_event argument preferences = shown).
Proof.
  intros E Hne Hpost search_term shown.
  unfold ItemEnterEventListener.on_event, KeywordQueryEventListener.on_event.
  rewrite E. split; [|intros ->; simpl];
    by rewrite (transport_error_recovered self search_term err).
Qed.

Lemma query_and_render_at_most_one self (search_term : string) :
  (length (sent (query_and_render self search_term)) <= 1)%nat.
Proof.
  unfold query_and_render, query.
  destruct (String.eqb search_term ""); simpl; [lia|].
  destruct (requests_post _); simpl; lia.
Qed.

(** X16: whatever the event and the preferences, a handler hands at most
    one request to [requests.post]. *)
Theorem at_most_one_request preferences (data : string)
    (argument : option string) :
  (length (sent (ItemEnterEventListener.on_event data preferences)) <= 1)%nat
  /\ (length (sent (KeywordQueryEventListener.on_event argument preferences))
      <= 1)%nat.
Proof.
  unfold ItemEnterEventListener.on_event, KeywordQueryEventListener.on_event.
  destruct (parse_prefs preferences) as [self|err]; simpl; [|lia].
  split; [apply query_and_render_at_most_one|].
  destruct (negb _); simpl; [lia | apply query_and_render_at_most_one].
Qed.

(** X17: with preferences that ask to wait, the keyword handler sends
    nothing and returns one item whose action carries the prompt as it
    was typed and keeps the launcher open; the Enter handler, given that
    prompt, sends its request although the preferences still ask to
    wait. *)
Theorem deferred_confirmation preferences self (argument : option string) :
  parse_prefs preferences = Ok self ->
  wait_for_enter self <> 0 ->
  let search_term := KeywordQueryEventListener.str_argument argument in
  KeywordQueryEventListener.on_event argument preferences
  = {| sent := [];
       outcome :=
         Ok {| result_list :=
                 [ {| icon := EXTENSION_ICON;
                      name := "Waiting until Enter is pressed: "
                              +:+ search_term;
                      description := None;
                      on_enter := ExtensionCustomAction search_term true |} ] |} |}
  /\ (search_term <> "" ->
      sent (ItemEnterEventListener.on_event search_term preferences)
      = [request_of self search_term]).
Proof.
  intros E Hwait search_term. split.
  - unfold KeywordQueryEventListener.on_event. rewrite E.
    apply Z.eqb_neq in Hwait. by rewrite Hwait.
  - intros Hne. unfold ItemEnterEventListener.on_event. rewrite E.
    by apply query_and_render_sent.
Qed.

(** X18: with preferences that do not ask to wait, the keyword handler
    does for an argument what the Enter handler does for the text of that
    argument. *)
Theorem immediate_is_replay preferences self (argument : option string) :
  parse_prefs preferences = Ok self ->
  wait_for_enter self = 0 ->
  KeywordQueryEventListener.on_event argument preferences
  = ItemEnterEventListener.on_event
      (KeywordQueryEventListener.str_argument argument) preferences.
Proof.
  intros E Hwait.
  unfold ItemEnterEventListener.on_event, KeywordQueryEventListener.on_event.
  by rewrite E, Hwait.
Qed.

(** X19: end to end: with resolved preferences that do not ask to wait,
    a non-empty prompt and a response with a list of choices that hold
    texts, the keyword handler sends one request and returns one
    candidate item per choice, in order, wrapped at the [line_wrap] of
    the preferences. *)
Theorem completion_shown preferences self (argument : option string)
    (response : Response F) (body : json F) (choices : list (json F))
    (contents : list string) :
  parse_prefs preferences = Ok self ->
  wait_for_enter self = 0 ->
  KeywordQueryEventListener.str_argument argument <> "" ->
  requests_post
    (request_of self (KeywordQueryEventListener.str_argument argument))
  = Ok response ->
  decoded response = Some body ->
  getitem body "choices" = Ok (JArray choices) ->
  Forall2 (fun choice text => content_of choice = Ok (JString text))
    choices contents ->
  KeywordQueryEventListener.on_event argument preferences
  = {| sent :=
         [request_of self (KeywordQueryEventListener.str_argument argument)];
       outcome :=
         Ok {| result_list :=
                 map (fun text =>
                        {| icon := EXTENSION_ICON;
                           name := "Assistant";
                           description :=
                             Some (wrap_text text (line_wrap self));
                           on_enter :=
                             CopyToClipboardAction
                               (wrap_text text (line_wrap self)) |})
                   contents |} |}.
Proof.
  intros E Hwait Hne Hpost Hbody Hchoices Hcontents.
  unfold KeywordQueryEventListener.on_event. rewrite E, Hwait. simpl.
  unfold query_and_render. rewrite query_sends by done. simpl.
  rewrite Hpost. simpl.
  unfold create_items, decode_choices, call_json.
  rewrite Hbody, Hchoices. simpl.
  by rewrite (for_each_choices (line_wrap self) choices contents).
Qed.

(** X20: for the empty prompt the handlers send nothing and do not
    return the placeholder of [query]: they pass its render action to
    [create_items], and the exception of [create_items] leaves them. *)
Theorem blank_prompt_raises preferences self :
  parse_prefs preferences = Ok self ->
  let raised :=
    {| sent := [];
       outcome :=
         Raise (Exception
                  (py_str
                     (Render
                        {| result_list :=
                             [ {| icon := EXTENSION_ICON;
                                  name := "Type in a prompt...";
                                  description := None;
                                  on_enter := DoNothingAction |} ] |})
                   +:+ "Unknown error, please check logs for more info")) |}
  in
  ItemEnterEventListener.on_event "" preferences = raised
  /\ (wait_for_enter self = 0 ->
      KeywordQueryEventListener.on_event (Some "") preferences = raised).
Proof.
  intros E raised.
  unfold ItemEnterEventListener.on_event, KeywordQueryEventListener.on_event.
  rewrite E. split; [|intros ->]; apply blank_prompt_in_handlers.
Qed.

(** X21: the generation parameters of the request body are the
    preferences as [int] and [float] parsed them, and the model as it
    stands: nothing is clamped or defaulted on the way. *)
Theorem parameters_pass_through preferences self (search_term : string) :
  parse_prefs preferences = Ok self ->
  search_term <> "" ->
  exists (body : json F) (t p f q : F) (n : Z) (m : string),
    float_pref preferences "temperature" t
    /\ int_pref preferences "max_tokens" n
    /\ float_pref preferences "top_p" p
    /\ float_pref preferences "frequency_penalty" f
    /\ float_pref preferences "presence_penalty" q
    /\ preferences !! "model" = Some m
    /\ map data
         (sent (ItemEnterEventListener.on_event search_term preferences))
       = [json_dumps body]
    /\ getitem body "temperature" = Ok (JFloat t)
    /\ getitem body "max_tokens" = Ok (JInt n)
    /\ getitem body "top_p" = Ok (JFloat p)
    /\ getitem body "frequency_penalty" = Ok (JFloat f)
    /\ getitem body "presence_penalty" = Ok (JFloat q)
    /\ getitem body "model" = Ok (JString m).
Proof.
  intros E Hne.
  destruct (parse_prefs_inv preferences self E)
    as (_ & Hn & Hf & Hq & Ht & Hp & _ & _ & Hm & _).
  exists (request_body search_term (system_prompt self) (temperature self)
            (max_tokens self) (top_p self) (frequency_penalty self)
            (presence_penalty self) (model self)).
  exists (temperature self), (top_p self), (frequency_penalty self),
    (presence_penalty self), (max_tokens self), (model self).
  repeat (split; [done|]).
  split; [|done].
  unfold ItemEnterEventListener.on_event. rewrite E.
  by rewrite query_and_render_sent.
Qed.

End PipelineExtras.

(** ** Runs at concrete inputs *)

(** C1, at the preferences of the end-to-end example, the prompt ["hi"]
    and a service that answers [{"error": {"message": "bad key"}}].  The
    claim: each of the three kinds of failure ends as one error item.
    The preferences resolve, the request is sent and answered, and
    [create_items] raises for the missing ["choices"]; both handlers call
    it after their [try] blocks, so the exception leaves them and no item
    is returned. *)
Theorem service_error_leaves_handlers :
  parse_prefs (host := Sample.bad_key_host) Sample.preferences
  = Ok Sample.settings
  /\ requests_post (Host := Sample.bad_key_host)
       (request_of (host := Sample.bad_key_host) Sample.settings "hi")
     = Ok Sample.bad_key_response
  /\ create_items (host := Sample.bad_key_host)
       (Http Sample.bad_key_response) 20
     = Raise (Exception "{'error': {'message': 'bad key'}}bad key")
  /\ outcome (KeywordQueryEventListener.on_event
                (host := Sample.bad_key_host) (Some "hi") Sample.preferences)
     = Raise (Exception "{'error': {'message': 'bad key'}}bad key")
  /\ outcome (ItemEnterEventListener.on_event
                (host := Sample.bad_key_host) "hi" Sample.preferences)
     = Raise (Exception "{'error': {'message': 'bad key'}}bad key").
Proof. by vm_compute. Qed.

(** C5, at the preferences of the end-to-end example and the empty
    prompt.  The claim: nothing is sent and the one placeholder item is
    returned.  The preferences resolve, and [query] sends nothing and
    returns the render action of the placeholder item; but both handlers
    pass what [query] returns to [create_items], after their [try]
    blocks, and a render action has neither [json()] nor a subscript:
    [create_items] raises, the exception leaves the handlers, and no item
    is returned. *)
Theorem blank_prompt_leaves_handlers :
  parse_prefs (host := Sample.hello_host) Sample.preferences
  = Ok Sample.settings
  /\ query (host := Sample.hello_host) "" "sys" "k" (Qmake 5 10) 16
       (Qmake 1 1) (Qmake 0 1) (Qmake 0 1) "m"
     = {| sent := [];
          outcome :=
            Ok (Render
                  {| result_list :=
                       [ {| icon := EXTENSION_ICON;
                            name := "Type in a prompt...";
                            description := None;
                            on_enter := DoNothingAction |} ] |}) |}
  /\ create_items (host := Sample.hello_host)
       (Render
          {| result_list :=
               [ {| icon := EXTENSION_ICON;
                    name := "Type in a prompt...";
                    description := None;
                    on_enter := DoNothingAction |} ] |}) 20
     = Raise (Exception
                ("<ulauncher.api.shared.action.RenderResultListAction."
                 +:+ "RenderResultListAction object at 0x7f3a5c0d2e90>"
                 +:+ "Unknown error, please check logs for more info"))
  /\ ItemEnterEventListener.on_event (host := Sample.hello_host)
       "" Sample.preferences
     = {| sent := [];
          outcome :=
            Raise (Exception
                     ("<ulauncher.api.shared.action.RenderResultListAction."
                      +:+ "RenderResultListAction object at 0x7f3a5c0d2e90>"
                      +:+ "Unknown error, please check logs for more info"))
       |}
  /\ KeywordQueryEventListener.on_event (host := Sample.hello_host)
       (Some "") Sample.preferences
     = {| sent := [];
          outcome :=
            Raise (Exception
                     ("<ulauncher.api.shared.action.RenderResultListAction."
                      +:+ "RenderResultListAction object at 0x7f3a5c0d2e90>"
                      +:+ "Unknown error, please check logs for more info"))
       |}.
Proof. by vm_compute. Qed.

(** C3, as stated, fails: a body whose ["choices"] is a [dict] has no
    ["choices"] list, and [create_items] returns the empty list for it
    instead of raising. *)
Lemma create_items_dict_choices_empty :
  decoded Sample.dict_choices_response
  = Some (JObject [("choices", JObject [])])
  /\ create_items (host := Sample.hello_host)
       (Http Sample.dict_choices_response) 20
     = Ok [].
Proof. by vm_compute. Qed.

Lemma create_items_failure_witness :
  no_choices Sample.bad_key_response
  /\ create_items (host := Sample.bad_key_host)
       (Http Sample.bad_key_response) 20
     = Raise (Exception "{'error': {'message': 'bad key'}}bad key").
Proof.
  assert (no_choices Sample.bad_key_response) as H
    by (intros choices; discriminate).
  split; [exact H|].
  exact (proj1 (proj2 (create_items_failure (host := Sample.bad_key_host)
                         Sample.bad_key_response 20 H))
           "bad key" eq_refl).
Defined.

Lemma query_builds_two_turns_witness :
  "hi" <> ""
  /\ exists body : json Q,
       sent (query (host := Sample.hello_host) "hi" "sys" "k" (Qmake 5 10)
               16 (Qmake 1 1) (Qmake 0 1) (Qmake 0 1) "m")
       = [ {| url := ENDPOINT;
              headers := [ ("content-type", "application/json");
                           ("Authorization", "Bearer k") ];
              data := Sample.dumps body;
              timeout := 10 |} ]
       /\ getitem body "messages"
          = Ok (JArray
                  [ JObject [("role", JString "system");
                             ("content", JString "sys")];
                    JObject [("role", JString "user");
                             ("content", JString "hi")] ]).
Proof.
  assert ("hi" <> "") as H by discriminate.
  split; [exact H|].
  exact (query_builds_two_turns (host := Sample.hello_host) "hi" "sys" "k"
           (Qmake 5 10) 16 (Qmake 1 1) (Qmake 0 1) (Qmake 0 1) "m" H).
Defined.

Lemma create_items_candidates_witness :
  decoded Sample.hello_response = Some Sample.hello_body
  /\ create_items (host := Sample.hello_host) (Http Sample.hello_response) 20
     = Ok [ {| icon := EXTENSION_ICON;
               name := "Assistant";
               description := Some "hello world";
               on_enter := CopyToClipboardAction "hello world" |} ].
Proof.
  split; [reflexivity|].
  refine (proj1 (create_items_candidates (host := Sample.hello_host)
                   Sample.hello_response Sample.hello_body _
                   ["hello world"] 20 eq_refl eq_refl _)).
  repeat constructor.
Defined.

(** C7, as stated, fails: for [max_tokens = "abc"] resolution raises the
    [ValueError] of [int], whose text quotes the value and does not name
    the field. *)
Lemma max_tokens_error_names_no_field :
  Sample.bad_max_tokens !! "max_tokens" = Some "abc"
  /\ parse_prefs (host := Sample.hello_host) Sample.bad_max_tokens
     = Raise (ValueError "invalid literal for int() with base 10: 'abc'")
  /\ mentions "max_tokens"
       (str_exn (host := Sample.hello_host)
          (ValueError "invalid literal for int() with base 10: 'abc'"))
     = false.
Proof. by vm_compute. Qed.

Lemma max_tokens_failure_witness :
  Sample.bad_max_tokens !! "api_key" = Some "k"
  /\ Sample.bad_max_tokens !! "max_tokens" = Some "abc"
  /\ py_int (Host := Sample.hello_host) "abc"
     = Raise (ValueError "invalid literal for int() with base 10: 'abc'")
  /\ parse_prefs (host := Sample.hello_host) Sample.bad_max_tokens
     = Raise (ValueError "invalid literal for int() with base 10: 'abc'")
  /\ KeywordQueryEventListener.on_event (host := Sample.hello_host)
       (Some "hi") Sample.bad_max_tokens
     = {| sent := [];
          outcome :=
            Ok {| result_list :=
                    [ {| icon := EXTENSION_ICON;
                         name :=
                           "Failed to parse preferences: "
                           +:+ "invalid literal for int() with base 10: 'abc'";
                         description := None;
                         on_enter :=
                           CopyToClipboardAction
                             "invalid literal for int() with base 10: 'abc'"
                      |} ] |} |}.
Proof.
  assert (Sample.bad_max_tokens !! "api_key" = Some "k") as Hk
    by (by vm_compute).
  assert (Sample.bad_max_tokens !! "max_tokens" = Some "abc") as Hv
    by (by vm_compute).
  assert (py_int (Host := Sample.hello_host) "abc"
          = Raise (ValueError "invalid literal for int() with base 10: 'abc'"))
    as Hint by (by vm_compute).
  split; [exact Hk|]. split; [exact Hv|]. split; [exact Hint|].
  pose proof (max_tokens_failure (host := Sample.hello_host)
                Sample.bad_max_tokens "abc" _ Hv Hint) as H.
  cbv zeta in H. rewrite Hk in H. destruct H as [E Hshown].
  split; [exact E|]. exact (proj2 (Hshown "hi" (Some "hi"))).
Defined.

Lemma keyword_argument_none_witness :
  parse_prefs (host := Sample.hello_host) Sample.preferences
  = Ok Sample.settings
  /\ wait_for_enter Sample.settings = 0
  /\ exists body : json Q,
       getitem body "messages"
       = Ok (JArray
               [ JObject [("role", JString "system");
                          ("content", JString "sys")];
                 JObject [("role", JString "user");
                          ("content", JString "None")] ])
       /\ sent (KeywordQueryEventListener.on_event
                  (host := Sample.hello_host) None Sample.preferences)
          = [ {| url := ENDPOINT;
                 headers := [ ("content-type", "application/json");
                              ("Authorization", "Bearer k") ];
                 data := Sample.dumps body;
                 timeout := 10 |} ].
Proof.
  assert (parse_prefs (host := Sample.hello_host) Sample.preferences
          = Ok Sample.settings) as E by (by vm_compute).
  split; [exact E|]. split; [reflexivity|].
  destruct (keyword_argument_none (host := Sample.hello_host)
              Sample.preferences Sample.settings E)
    as (_ & (body & Hturns & Hsent & _) & _).
  exists body. split; [exact Hturns|]. exact (Hsent eq_refl).
Defined.

(** ** Runs of the further properties *)

Lemma wrap_lines_first_width_witness :
  0 <= 5
  /\ head (wrap_lines "aaaaa bbb cc" 5) = Some "aaaaa"
  /\ len "aaaaa" <= 5.
Proof.
  assert (0 <= 5) as Hpos by lia.
  assert (head (wrap_lines "aaaaa bbb cc" 5) = Some "aaaaa") as Hhead
    by reflexivity.
  split; [exact Hpos|]. split; [exact Hhead|].
  exact (wrap_lines_first_width "aaaaa bbb cc" 5 "aaaaa" Hpos Hhead).
Defined.

Lemma wrap_lines_width_witness :
  0 <= 5
  /\ Forall (fun w => len w <= 5) (split "aaaaa bbb cc")
  /\ Forall (fun l => len l <= 5 + 1) (wrap_lines "aaaaa bbb cc" 5).
Proof.
  assert (0 <= 5) as Hpos by lia.
  assert (Forall (fun w => len w <= 5) (split "aaaaa bbb cc")) as Hfit
    by (repeat constructor; by vm_compute).
  split; [exact Hpos|]. split; [exact Hfit|].
  exact (wrap_lines_width "aaaaa bbb cc" 5 Hpos Hfit).
Defined.

Lemma wrap_text_blank_witness :
  all_space (" " +:+ LF +:+ " ") = true
  /\ wrap_lines (" " +:+ LF +:+ " ") 10 = [""]
  /\ wrap_text (" " +:+ LF +:+ " ") 10 = "".
Proof.
  assert (all_space (" " +:+ LF +:+ " ") = true) as H by reflexivity.
  split; [exact H|].
  exact (wrap_text_blank (" " +:+ LF +:+ " ") 10 H).
Defined.

Lemma wrap_text_one_line_witness :
  len (join " " (split "a  b")) <= 10
  /\ wrap_text "a  b" 10 = "a b".
Proof.
  assert (len (join " " (split "a  b")) <= 10) as H
    by (vm_compute; discriminate).
  split; [exact H|].
  exact (wrap_text_one_line "a  b" 10 H).
Defined.

Lemma parse_prefs_resolves_iff_witness :
  parse_prefs (host := Sample.hello_host) Sample.preferences
  = Ok Sample.settings.
Proof.
  apply (proj2 (parse_prefs_resolves_iff (host := Sample.hello_host)
                  Sample.preferences Sample.settings)).
  repeat split; try reflexivity; eexists; split; reflexivity.
Defined.

Lemma create_items_only_candidates_witness :
  create_items (host := Sample.hello_host) (Http Sample.hello_response) 20
  = Ok [ {| icon := EXTENSION_ICON;
            name := "Assistant";
            description := Some "hello world";
            on_enter := CopyToClipboardAction "hello world" |} ]
  /\ Forall (fun item =>
               icon item = EXTENSION_ICON
               /\ name item = "Assistant"
               /\ exists text : string,
                    description item = Some (wrap_text text 20)
                    /\ on_enter item
                       = CopyToClipboardAction (wrap_text text 20))
       [ {| icon := EXTENSION_ICON;
            name := "Assistant";
            description := Some "hello world";
            on_enter := CopyToClipboardAction "hello world" |} ].
Proof.
  assert (create_items (host := Sample.hello_host)
            (Http Sample.hello_response) 20
          = Ok [ {| icon := EXTENSION_ICON;
                    name := "Assistant";
                    description := Some "hello world";
                    on_enter := CopyToClipboardAction "hello world" |} ])
    as H by reflexivity.
  split; [exact H|].
  exact (create_items_only_candidates (host := Sample.hello_host)
           (Http Sample.hello_response) 20 _ H).
Defined.

Lemma create_items_first_failure_witness :
  decoded Sample.null_content_response = Some Sample.null_content_body
  /\ create_items (host := Sample.hello_host)
       (Http Sample.null_content_response) 20
     = Raise (AttributeError "'NoneType' object has no attribute 'split'").
Proof.
  split; [reflexivity|].
  refine (create_items_first_failure (host := Sample.hello_host)
            Sample.null_content_response Sample.null_content_body
            [_] _ [] 20 _ eq_refl eq_refl _ _).
  - repeat constructor. by exists "hello world".
  - right. exists JNull. split; reflexivity.
Defined.

Lemma create_items_choices_not_list_witness :
  create_items (host := Sample.hello_host)
    (Http Sample.dict_choices_response) 20 = Ok []
  /\ create_items (host := Sample.hello_host)
       (Http {| status_code := 200;
                decoded := Some (JObject [("choices", JString "")]) |}) 20
     = Ok []
  /\ exists msg,
       create_items (host := Sample.hello_host)
         (Http {| status_code := 200;
                  decoded := Some (JObject [("choices", JInt 3)]) |}) 20
       = Raise (TypeError msg).
Proof.
  split; [|split].
  - refine (proj1 (create_items_choices_not_list (host := Sample.hello_host)
                     Sample.dict_choices_response Sample.dict_choices_body
                     (JObject []) 20 eq_refl eq_refl _) _).
    + intros items. discriminate.
    + by left.
  - refine (proj1 (create_items_choices_not_list (host := Sample.hello_host)
                     {| status_code := 200;
                        decoded := Some (JObject [("choices", JString "")]) |}
                     (JObject [("choices", JString "")])
                     (JString "") 20 eq_refl eq_refl _) _).
    + intros items. discriminate.
    + by right.
  - refine (proj2 (create_items_choices_not_list (host := Sample.hello_host)
                     {| status_code := 200;
                        decoded := Some (JObject [("choices", JInt 3)]) |}
                     (JObject [("choices", JInt 3)])
                     (JInt 3) 20 eq_refl eq_refl _) _ _).
    + intros items. discriminate.
    + discriminate.
    + discriminate.
Defined.

Lemma resolution_failure_shown_witness :
  parse_prefs (host := Sample.hello_host) Sample.bad_max_tokens
  = Raise (ValueError "invalid literal for int() with base 10: 'abc'")
  /\ KeywordQueryEventListener.on_event (host := Sample.hello_host)
       (Some "hi") Sample.bad_max_tokens
     = {| sent := [];
          outcome :=
            Ok {| result_list :=
                    [ {| icon := EXTENSION_ICON;
                         name := "Failed to parse preferences: "
                                 +:+ "invalid literal for int() with base 10: 'abc'";
                         description := None;
                         on_enter :=
                           CopyToClipboardAction
                             "invalid literal for int() with base 10: 'abc'" |} ] |} |}.
Proof.
  assert (parse_prefs (host := Sample.hello_host) Sample.bad_max_tokens
          = Raise (ValueError "invalid literal for int() with base 10: 'abc'"))
    as E by (by vm_compute).
  split; [exact E|].
  exact (proj2 (resolution_failure_shown (host := Sample.hello_host)
                  Sample.bad_max_tokens _ E "hi" (Some "hi"))).
Defined.

Lemma transport_failure_shown_witness :
  parse_prefs (host := Sample.silent_host) Sample.preferences
  = Ok Sample.settings
  /\ requests_post (Host := Sample.silent_host)
       (request_of (host := Sample.silent_host) Sample.settings "hi")
     = Raise Sample.timed_out
  /\ outcome (KeywordQueryEventListener.on_event (host := Sample.silent_host)
                (Some "hi") Sample.preferences)
     = Ok (error_item (host := Sample.silent_host) "Request failed: "
             Sample.timed_out).
Proof.
  assert (parse_prefs (host := Sample.silent_host) Sample.preferences
          = Ok Sample.settings) as E by (by vm_compute).
  split; [exact E|]. split; [reflexivity|].
  destruct (transport_failure_shown (host := Sample.silent_host)
              Sample.preferences Sample.settings (Some "hi")
              Sample.timed_out E)
    as [_ H]; [discriminate | reflexivity |].
  rewrite (H eq_refl). reflexivity.
Defined.

Lemma deferred_confirmation_witness :
  parse_prefs (host := Sample.hello_host) Sample.waiting
  = Ok Sample.waiting_settings
  /\ wait_for_enter Sample.waiting_settings <> 0
  /\ sent (KeywordQueryEventListener.on_event (host := Sample.hello_host)
             (Some "hi") Sample.waiting) = []
  /\ sent (ItemEnterEventListener.on_event (host := Sample.hello_host)
             "hi" Sample.waiting)
     = [request_of (host := Sample.hello_host) Sample.waiting_settings "hi"].
Proof.
  assert (parse_prefs (host := Sample.hello_host) Sample.waiting
          = Ok Sample.waiting_settings) as E by (by vm_compute).
  assert (wait_for_enter Sample.waiting_settings <> 0) as Hwait
    by discriminate.
  split; [exact E|]. split; [exact Hwait|].
  destruct (deferred_confirmation (host := Sample.hello_host)
              Sample.waiting Sample.waiting_settings (Some "hi") E Hwait)
    as [-> Hsent].
  split; [reflexivity|]. apply Hsent. discriminate.
Defined.

Lemma immediate_is_replay_witness :
  parse_prefs (host := Sample.hello_host) Sample.preferences
  = Ok Sample.settings
  /\ wait_for_enter Sample.settings = 0
  /\ KeywordQueryEventListener.on_event (host := Sample.hello_host)
       (Some "hi") Sample.preferences
     = ItemEnterEventListener.on_event (host := Sample.hello_host)
         "hi" Sample.preferences.
Proof.
  assert (parse_prefs (host := Sample.hello_host) Sample.preferences
          = Ok Sample.settings) as E by (by vm_compute).
  split; [exact E|]. split; [reflexivity|].
  exact (immediate_is_replay (host := Sample.hello_host) Sample.preferences
           Sample.settings (Some "hi") E eq_refl).
Defined.

Lemma completion_shown_witness :
  parse_prefs (host := Sample.hello_host) Sample.preferences
  = Ok Sample.settings
  /\ outcome (KeywordQueryEventListener.on_event (host := Sample.hello_host)
                (Some "hi") Sample.preferences)
     = Ok {| result_list :=
               [ {| icon := EXTENSION_ICON;
                    name := "Assistant";
                    description := Some "hello world";
                    on_enter := CopyToClipboardAction "hello world" |} ] |}.
Proof.
  assert (parse_prefs (host := Sample.hello_host) Sample.preferences
          = Ok Sample.settings) as E by (by vm_compute).
  split; [exact E|].
  rewrite (completion_shown (host := Sample.hello_host) Sample.preferences
             Sample.settings (Some "hi") Sample.hello_response
             Sample.hello_body
             [ JObject
                 [ ("message",
                    JObject [ ("role", JString "assistant");
                              ("content", JString "hello world") ]) ] ]
             ["hello world"] E eq_refl).
  - reflexivity.
  - discriminate.
  - reflexivity.
  - reflexivity.
  - reflexivity.
  - repeat constructor.
Defined.

Lemma blank_prompt_raises_witness :
  parse_prefs (host := Sample.hello_host) Sample.preferences
  = Ok Sample.settings
  /\ sent (KeywordQueryEventListener.on_event (host := Sample.hello_host)
             (Some "") Sample.preferences) = []
  /\ exists msg,
       outcome (KeywordQueryEventListener.on_event
                  (host := Sample.hello_host) (Some "") Sample.preferences)
       = Raise (Exception msg).
Proof.
  assert (parse_prefs (host := Sample.hello_host) Sample.preferences
          = Ok Sample.settings) as E by (by vm_compute).
  split; [exact E|].
  destruct (blank_prompt_raises (host := Sample.hello_host)
              Sample.preferences Sample.settings E) as [_ H].
  rewrite (H eq_refl). split; [reflexivity|]. eexists. reflexivity.
Defined.

Lemma parameters_pass_through_witness :
  parse_prefs (host := Sample.hello_host) Sample.preferences
  = Ok Sample.settings
  /\ "hi" <> ""
  /\ exists body : json Q,
       map data
         (sent (ItemEnterEventListener.on_event (host := Sample.hello_host)
                  "hi" Sample.preferences))
       = [Sample.dumps body]
       /\ getitem body "max_tokens" = Ok (JInt 16).
Proof.
  assert (parse_prefs (host := Sample.hello_host) Sample.preferences
          = Ok Sample.settings) as E by (by vm_compute).
  assert ("hi" <> "") as Hne by discriminate.
  split; [exact E|]. split; [exact Hne|].
  destruct (parameters_pass_through (host := Sample.hello_host)
              Sample.preferences Sample.settings "hi" E Hne)
    as (body & t & p & f & q & n & m & _ & (s & Hs & Hn) & _ & _ & _ & _
        & Hsent & _ & Hmax & _).
  exists body. split; [exact Hsent|].
  rewrite Hmax. vm_compute in Hs. injection Hs as <-.
  vm_compute in Hn. by injection Hn as <-.
Defined.
